(** * Bookstore checkout: a shallow embedding of [bookstore.js]

    The development follows the final revision of the module (the one
    that exports the coupon, shipping and e-mail features).

    - JavaScript numbers that carry money (prices, subtotals, discounts,
      taxes, totals) are IEEE-754 binary64 values: module [JsNumber]
      gives them as exact rationals together with NaN and the two
      infinities, and every arithmetic operation rounds the exact
      result to the nearest double, ties to even.  On sample operands
      the operations are checked against the Standard Library's
      [SpecFloat].
    - Book ids, quantities and stock counters are whole numbers ([Z]).
    - The cart, a JavaScript object keyed by book id, is an association
      list kept in the enumeration order of [for ... in] (ascending
      integer keys); the coupon and shipping tables are maps on their
      own keys.
    - Module-level mutable state ([bookDatabase], [shoppingCart],
      [emailLog]) and the host's [Math.random] and [Date.now] are
      threaded through a state-and-exception monad. *)

From Stdlib Require Import ZArith QArith Qround Qpower Qabs Qreduction.
From Stdlib Require Import List String Ascii Bool Lia Lqa.
From Stdlib Require Import DecimalString DecimalPos DecimalZ SpecFloat.
From Stdlib Require Import Sorted.
Import ListNotations.

(** ** JavaScript numbers *)

Module JsNumber.

Local Open Scope Q_scope.

(** A double is NaN, an infinity, or a finite value given by the
    rational it denotes.  The sign of zero is not tracked: nothing in
    the bookstore module can observe it. *)
Inductive number : Type :=
| NaN : number
| Infinity (negative : bool) : number
| Finite (q : Q) : number.

Definition pow2 (e : Z) : Q := 2 ^ e.

(** [ilog2 q] is the integer [l] with [2^l <= q < 2^(l+1)], for [q > 0]. *)
Definition ilog2 (q : Q) : Z :=
  let l := (Z.log2 (Qnum q) - Z.log2 (Zpos (Qden q)))%Z in
  if Qle_bool (pow2 l) q then l else (l - 1)%Z.

(** Nearest integer, ties to the even one. *)
Definition round_half_even (q : Q) : Z :=
  let f := Qfloor q in
  match Qcompare (q - inject_Z f) (1 # 2) with
  | Lt => f
  | Gt => (f + 1)%Z
  | Eq => if Z.even f then f else (f + 1)%Z
  end.

(** The exponent of the binary64 grid around [q > 0]: 53 significant
    bits, and never below the subnormal spacing [2^-1074]. *)
Definition grid_exponent (q : Q) : Z := Z.max (ilog2 q - 52) (-1074).

(** Rounding of a positive rational to the grid, exponent unbounded above. *)
Definition round_magnitude (q : Q) : Q :=
  let e := grid_exponent q in
  inject_Z (round_half_even (q / pow2 e)) * pow2 e.

(** Round to nearest double, ties to even, overflowing to infinity. *)
Definition rne (q : Q) : number :=
  match Qcompare q 0 with
  | Eq => Finite 0
  | Gt => let v := round_magnitude q in
          if Qle_bool (pow2 1024) v then Infinity false else Finite (Qred v)
  | Lt => let v := round_magnitude (- q) in
          if Qle_bool (pow2 1024) v then Infinity true else Finite (Qred (- v))
  end.

(** A decimal literal of the source text, such as [12.99]. *)
Definition literal (q : Q) : number := rne q.

Definition ofZ (z : Z) : number := rne (inject_Z z).

Definition is_negative (q : Q) : bool := negb (Qle_bool 0 q).
Definition is_zero (q : Q) : bool := Qeq_bool q 0.

Definition neg (x : number) : number :=
  match x with
  | NaN => NaN
  | Infinity s => Infinity (negb s)
  | Finite q => Finite (- q)
  end.

(** [x + y] *)
Definition add (x y : number) : number :=
  match x, y with
  | NaN, _ | _, NaN => NaN
  | Infinity a, Infinity b => if Bool.eqb a b then Infinity a else NaN
  | Infinity a, Finite _ => Infinity a
  | Finite _, Infinity b => Infinity b
  | Finite a, Finite b => rne (a + b)
  end.

(** [x - y] *)
Definition sub (x y : number) : number := add x (neg y).

(** [x * y] *)
Definition mul (x y : number) : number :=
  match x, y with
  | NaN, _ | _, NaN => NaN
  | Infinity a, Infinity b => Infinity (xorb a b)
  | Infinity a, Finite q | Finite q, Infinity a =>
      if is_zero q then NaN else Infinity (xorb a (is_negative q))
  | Finite a, Finite b => rne (a * b)
  end.

(** [x / y]; a zero divisor is taken as [+0]. *)
Definition div (x y : number) : number :=
  match x, y with
  | NaN, _ | _, NaN => NaN
  | Infinity _, Infinity _ => NaN
  | Infinity a, Finite q => Infinity (xorb a (is_negative q))
  | Finite _, Infinity _ => Finite 0
  | Finite a, Finite b =>
      if is_zero b then (if is_zero a then NaN else Infinity (is_negative a))
      else rne (a / b)
  end.

(** [x < y], [x <= y], [x > y], [x >= y]: false as soon as one side is NaN. *)
Definition lt (x y : number) : bool :=
  match x, y with
  | NaN, _ | _, NaN => false
  | Infinity a, Infinity b => a && negb b
  | Infinity a, Finite _ => a
  | Finite _, Infinity b => negb b
  | Finite a, Finite b => negb (Qle_bool b a)
  end.

Definition le (x y : number) : bool :=
  match x, y with
  | NaN, _ | _, NaN => false
  | Infinity a, Infinity b => a || negb b
  | Infinity a, Finite _ => a
  | Finite _, Infinity b => negb b
  | Finite a, Finite b => Qle_bool a b
  end.

Definition gt (x y : number) : bool := lt y x.
Definition ge (x y : number) : bool := le y x.

(** The text produced by [Number.prototype.toFixed] and read back by
    [parseFloat], kept structured rather than as characters. *)
Inductive numeral : Type :=
| TextNaN : numeral
| TextInfinity (negative : bool) : numeral
| TextFixed (negative : bool) (digits : Z) (places : nat) : numeral
    (* the decimal digits of [digits], the point [places] from the right *)
| TextShortest (q : Q) : numeral.
    (* ToString of a double of magnitude 1e21 or more *)

(** [x.toFixed(f)]: the integer [n] for which [n / 10^f - |x|] is
    closest to zero, the larger one on a tie. *)
Definition toFixed (x : number) (f : nat) : numeral :=
  match x with
  | NaN => TextNaN
  | Infinity s => TextInfinity s
  | Finite q =>
      if Qle_bool (inject_Z (10 ^ 21)) (Qabs q) then TextShortest q
      else TextFixed (is_negative q)
                     (Qfloor (Qabs q * inject_Z (10 ^ Z.of_nat f) + (1 # 2))) f
  end.

Definition parseFloat (t : numeral) : number :=
  match t with
  | TextNaN => NaN
  | TextInfinity s => Infinity s
  | TextFixed s n f =>
      let v := inject_Z n / inject_Z (10 ^ Z.of_nat f) in
      rne (if s then - v else v)
  | TextShortest q => Finite q
  end.

Definition is_finite (x : number) : bool :=
  match x with Finite _ => true | _ => false end.

(** Proof scripts simplify around the arithmetic, never through it. *)
Arguments rne : simpl never.
Arguments literal : simpl never.
Arguments ofZ : simpl never.
Arguments add : simpl never.
Arguments sub : simpl never.
Arguments mul : simpl never.
Arguments div : simpl never.
Arguments lt : simpl never.
Arguments le : simpl never.
Arguments toFixed : simpl never.
Arguments parseFloat : simpl never.

End JsNumber.

(** ** Strings *)

Module JsString.

Local Open Scope string_scope.

(** Letter case, on the ASCII letters the catalog and the tables use. *)
Definition lower (c : ascii) : ascii :=
  let n := nat_of_ascii c in
  if ((65 <=? n) && (n <=? 90))%nat then ascii_of_nat (n + 32) else c.

Definition upper (c : ascii) : ascii :=
  let n := nat_of_ascii c in
  if ((97 <=? n) && (n <=? 122))%nat then ascii_of_nat (n - 32) else c.

Fixpoint toLowerCase (s : string) : string :=
  match s with
  | EmptyString => EmptyString
  | String c r => String (lower c) (toLowerCase r)
  end.

Fixpoint toUpperCase (s : string) : string :=
  match s with
  | EmptyString => EmptyString
  | String c r => String (upper c) (toUpperCase r)
  end.

(** [s.includes(sub)] *)
Fixpoint includes (s sub : string) : bool :=
  if String.prefix sub s then true
  else match s with
       | EmptyString => false
       | String _ r => includes r sub
       end.

(** [s.substr(start, len)] *)
Definition substr (start len : nat) (s : string) : string :=
  String.substring start len s.

(** A whole number inside a template literal. *)
Definition ofInt (z : Z) : string := NilZero.string_of_int (Z.to_int z).

(** A string is truthy unless it is empty. *)
Definition truthy (s : string) : bool :=
  match s with EmptyString => false | _ => true end.

Definition quote : string := String (ascii_of_nat 34) EmptyString.

End JsString.

(** ** Objects keyed by whole numbers

    [for (const k in o)] visits integer keys in ascending order, whatever
    the order in which they were written; [set] keeps the list that way. *)

Module JsObject.

Section Object.

Context {A : Type}.

Definition object : Type := list (Z * A).

Fixpoint get (o : object) (k : Z) : option A :=
  match o with
  | [] => None
  | (k', v) :: r => if (k' =? k)%Z then Some v else get r k
  end.

Fixpoint set (o : object) (k : Z) (v : A) : object :=
  match o with
  | [] => [(k, v)]
  | (k', v') :: r =>
      if (k' =? k)%Z then (k, v) :: r
      else if (k <? k')%Z then (k, v) :: o
      else (k', v') :: set r k v
  end.

Definition keys (o : object) : list Z := map fst o.

End Object.

Arguments object : clear implicits.

End JsObject.

Import JsNumber.

(** ** Data model *)

Local Open Scope string_scope.
Local Open Scope Z_scope.

Module Book.
Record t : Type := mk {
  id : Z;
  title : string;
  author : string;
  price : number;
  stock : Z
}.
End Book.

Module CartItem.
Record t : Type := mk { book : Book.t; quantity : Z }.
End CartItem.

Definition Cart : Type := JsObject.object CartItem.t.

Module Coupon.
Inductive kind : Type := percentage | fixed | free_shipping.
Record t : Type := mk { type : kind; value : Z; minPurchase : Z }.
End Coupon.

Module Shipping.
Record t : Type := mk { name : string; cost : number; days : string }.
End Shipping.

Module CouponResult.
(** [type] and [freeShipping] are absent from the three rejecting
    results; an absent [freeShipping] is read as false by its one reader. *)
Record t : Type := mk {
  valid : bool;
  discount : number;
  type : option Coupon.kind;
  freeShipping : bool;
  message : string
}.
End CouponResult.

Module Pricing.
(** [shippingMethod], [couponApplied] and [couponMessage] are absent from
    the all-zero breakdown returned for a missing cart. *)
Record t : Type := mk {
  subtotal : number;
  discount : number;
  tax : number;
  shipping : number;
  shippingMethod : option string;
  total : number;
  couponApplied : option bool;
  couponMessage : option string
}.
End Pricing.

Module Payment.
Record t : Type := mk { success : bool; transactionId : option string }.
End Payment.

Record OrderDetails : Type := mkOrderDetails {
  details_orderId : string;
  details_items : Cart;
  details_pricing : Pricing.t;
  details_transactionId : option string
}.

Module Email.
(** [timestamp] keeps the instant read from the clock, not its ISO text. *)
Record t : Type := mk {
  id : string;
  to : string;
  subject : string;
  orderDetails : OrderDetails;
  timestamp : Z;
  status : string
}.
End Email.

Module EmailResult.
Inductive t : Type :=
| Sent (emailId : string) (message : string)      (* sent: true *)
| NotSent (error : string).                       (* sent: false *)
Definition sent (r : t) : bool :=
  match r with Sent _ _ => true | NotSent _ => false end.
Definition emailId (r : t) : option string :=
  match r with Sent i _ => Some i | NotSent _ => None end.
End EmailResult.

(** What [completePurchase] and [completePurchaseWithExtras] return. *)
Module Purchase.
Inductive t : Type :=
| Order (orderId : string) (transactionId : option string) (items : Cart)
        (total : number) (inventoryUpdated : JsObject.object Z)
        (message : string)
| OrderWithExtras (orderId : string) (transactionId : option string)
        (items : Cart) (pricing : Pricing.t)
        (inventoryUpdated : JsObject.object Z)
        (emailSent : bool) (emailId : option string) (message : string)
| Failed (error : string) (message : string).
Definition success (r : t) : bool :=
  match r with Failed _ _ => false | _ => true end.
Definition error (r : t) : option string :=
  match r with Failed e _ => Some e | _ => None end.
Definition message (r : t) : string :=
  match r with
  | Order _ _ _ _ _ m => m
  | OrderWithExtras _ _ _ _ _ _ _ m => m
  | Failed _ m => m
  end.
End Purchase.

(** ** Module state, host services and the exception monad *)

(** The host: successive results of [Math.random()] and of the clock, and
    the digits [Number.prototype.toString(36)] prints, which the language
    leaves to the implementation. *)
Record Host : Type := mkHost {
  Math_random : nat -> number;
  Date_now : nat -> Z;
  toString36 : number -> string
}.

Record State : Type := mkState {
  bookDatabase : list Book.t;
  shoppingCart : Cart;
  emailLog : list Email.t;
  host : Host;
  randomCalls : nat;
  clockCalls : nat
}.

(** A computation runs on the state and either returns a value or throws
    an [Error], of which only the message is ever read.  Mutations made
    before a throw stay. *)
Definition M (A : Type) : Type := State -> (A + string) * State.

Definition ret {A} (a : A) : M A := fun s => (inl a, s).
Definition throw {A} (msg : string) : M A := fun s => (inr msg, s).
Definition bind {A B} (m : M A) (k : A -> M B) : M B :=
  fun s => match m s with
           | (inl a, s') => k a s'
           | (inr e, s') => (inr e, s')
           end.
Definition try_catch {A} (body : M A) (handler : string -> M A) : M A :=
  fun s => match body s with
           | (inl a, s') => (inl a, s')
           | (inr e, s') => handler e s'
           end.

Notation "x <- m ;; k" := (bind m (fun x => k))
  (at level 61, m at next level, right associativity).
Notation "m ;;; k" := (bind m (fun _ => k))
  (at level 61, right associativity).

Definition get_bookDatabase : M (list Book.t) := fun s => (inl (bookDatabase s), s).
Definition get_shoppingCart : M Cart := fun s => (inl (shoppingCart s), s).
Definition get_emailLog : M (list Email.t) := fun s => (inl (emailLog s), s).

Definition set_bookDatabase (db : list Book.t) : M unit :=
  fun s => (inl tt, mkState db (shoppingCart s) (emailLog s) (host s)
                            (randomCalls s) (clockCalls s)).
Definition set_shoppingCart (c : Cart) : M unit :=
  fun s => (inl tt, mkState (bookDatabase s) c (emailLog s) (host s)
                            (randomCalls s) (clockCalls s)).
Definition set_emailLog (l : list Email.t) : M unit :=
  fun s => (inl tt, mkState (bookDatabase s) (shoppingCart s) l (host s)
                            (randomCalls s) (clockCalls s)).

(** [Math.random()] *)
Definition random : M number :=
  fun s => (inl (Math_random (host s) (randomCalls s)),
            mkState (bookDatabase s) (shoppingCart s) (emailLog s) (host s)
                    (S (randomCalls s)) (clockCalls s)).

(** [Date.now()] *)
Definition now : M Z :=
  fun s => (inl (Date_now (host s) (clockCalls s)),
            mkState (bookDatabase s) (shoppingCart s) (emailLog s) (host s)
                    (randomCalls s) (S (clockCalls s))).

(** [x.toString(36)] *)
Definition toString36Of (x : number) : M string :=
  fun s => (inl (toString36 (host s) x), s).

(** [JSON.parse(JSON.stringify(x))]: a detached copy.  Values here are
    immutable, and the whole numbers and finite prices a cart holds come
    back unchanged from their JSON text. *)
Definition deepCopy {A} (x : A) : A := x.

(** ** The catalog and the cart *)

Import JsString.

Definition seedCatalog : list Book.t :=
  [ Book.mk 1 "The Great Gatsby" "F. Scott Fitzgerald" (literal (1299 # 100)) 5;
    Book.mk 2 "To Kill a Mockingbird" "Harper Lee" (literal (1499 # 100)) 3;
    Book.mk 3 "1984" "George Orwell" (literal (1399 # 100)) 0;
    Book.mk 4 "Pride and Prejudice" "Jane Austen" (literal (1199 # 100)) 7;
    Book.mk 5 "The Catcher in the Rye" "J.D. Salinger" (literal (1249 # 100)) 4;
    Book.mk 6 "Brave New World" "Aldous Huxley" (literal (1349 # 100)) 2 ].

(** The module as loaded: seeded catalog, empty cart, empty e-mail log. *)
Definition initialState (h : Host) : State :=
  mkState seedCatalog [] [] h 0 0.

(** [bookDatabase.find((b) => b.id === bookId)] *)
Definition findBook (db : list Book.t) (bookId : Z) : option Book.t :=
  List.find (fun b => Book.id b =? bookId) db.

(** Assignment to the [stock] of the object [findBook] returned: the
    first entry with that id changes, in place. *)
Fixpoint setStock (db : list Book.t) (bookId : Z) (v : Z) : list Book.t :=
  match db with
  | [] => []
  | b :: r =>
      if Book.id b =? bookId
      then Book.mk (Book.id b) (Book.title b) (Book.author b) (Book.price b) v :: r
      else b :: setStock r bookId v
  end.

Definition searchBooks (query : string) : M (list Book.t) :=
  if negb (truthy query) then ret []
  else
    let lowerQuery := toLowerCase query in
    db <- get_bookDatabase ;;
    ret (List.filter
           (fun b => includes (toLowerCase (Book.title b)) lowerQuery
                     || includes (toLowerCase (Book.author b)) lowerQuery)
           db).

Definition addToCart (bookId quantity : Z) : M Cart :=
  db <- get_bookDatabase ;;
  match findBook db bookId with
  | None => throw ("Book with ID " ++ ofInt bookId ++ " not found")
  | Some b =>
      if quantity <=? 0 then throw "Quantity must be greater than 0"
      else
        cart <- get_shoppingCart ;;
        let currentQuantity :=
          match JsObject.get cart bookId with
          | Some item => CartItem.quantity item
          | None => 0
          end in
        let totalQuantity := currentQuantity + quantity in
        if totalQuantity >? Book.stock b
        then throw ("Only " ++ ofInt (Book.stock b) ++ " copies available")
        else
          match JsObject.get cart bookId with
          | Some item =>
              set_shoppingCart
                (JsObject.set cart bookId
                   (CartItem.mk (CartItem.book item)
                                (CartItem.quantity item + quantity)))
          | None =>
              set_shoppingCart
                (JsObject.set cart bookId (CartItem.mk (deepCopy b) quantity))
          end ;;;
          cart' <- get_shoppingCart ;;
          ret (deepCopy cart')
  end.

(** The loop shared by both pricing functions:
    [subtotal += item.book.price * item.quantity] for every line whose
    quantity is truthy, in enumeration order. *)
Definition sumLines (cart : Cart) : number :=
  List.fold_left
    (fun subtotal line =>
       let item := snd line in
       if CartItem.quantity item =? 0 then subtotal
       else add subtotal
                (mul (Book.price (CartItem.book item))
                     (ofZ (CartItem.quantity item))))
    cart (literal 0).

(** [None] stands for an argument that is falsy or not an object. *)
Definition calculateTotal (cart : option Cart) : number :=
  match cart with
  | None => literal 0
  | Some cart =>
      let subtotal := sumLines cart in
      let tax := mul subtotal (literal (1 # 10)) in
      let total := add subtotal tax in
      parseFloat (toFixed total 2)
  end.

Definition validMethods : list string := ["credit"; "debit"; "paypal"].

Definition processPayment (cartTotal : number) (paymentMethod : string)
  : M Payment.t :=
  if le cartTotal (literal 0) then throw "Invalid cart total"
  else if negb (existsb (String.eqb paymentMethod) validMethods)
  then throw "Invalid payment method"
  else
    r <- random ;;
    let success := gt r (literal (2 # 10)) in
    if success then
      t <- now ;;
      r' <- random ;;
      digits <- toString36Of r' ;;
      ret (Payment.mk true
             (Some ("TXN-" ++ ofInt t ++ "-" ++ substr 2 9 digits)))
    else ret (Payment.mk false None).

(** ** Inventory commit *)

(** First loop of [updateInventory]: every line against the live stock. *)
Fixpoint validateLines (cart : Cart) : M unit :=
  match cart with
  | [] => ret tt
  | (bookId, item) :: rest =>
      db <- get_bookDatabase ;;
      match findBook db bookId with
      | None =>
          throw ("Book with ID " ++ ofInt bookId ++ " not found in inventory")
      | Some b =>
          if Book.stock b <? CartItem.quantity item
          then throw ("Insufficient stock for " ++ quote ++ Book.title b ++ quote
                      ++ ". Available: " ++ ofInt (Book.stock b)
                      ++ ", Requested: " ++ ofInt (CartItem.quantity item))
          else validateLines rest
      end
  end.

(** Second loop: [book.stock -= item.quantity; updates[bookId] = book.stock]. *)
Fixpoint applyLines (cart : Cart) (updates : JsObject.object Z)
  : M (JsObject.object Z) :=
  match cart with
  | [] => ret updates
  | (bookId, item) :: rest =>
      db <- get_bookDatabase ;;
      match findBook db bookId with
      | None => throw "Cannot read properties of undefined (reading 'stock')"
      | Some b =>
          let newStock := Book.stock b - CartItem.quantity item in
          set_bookDatabase (setStock db bookId newStock) ;;;
          applyLines rest (JsObject.set updates bookId newStock)
      end
  end.

Definition updateInventory (cart : option Cart) : M (JsObject.object Z) :=
  match cart with
  | None => throw "Invalid cart object"
  | Some cart =>
      validateLines cart ;;;
      applyLines cart []
  end.

(** ** The basic purchase *)

Definition completePurchase
  (searchQuery : string) (bookId quantity : Z) (paymentMethod : string)
  : M Purchase.t :=
  current <- get_shoppingCart ;;
  let originalCart := deepCopy current in
  try_catch
    (searchResults <- searchBooks searchQuery ;;
     if (List.length searchResults =? 0)%nat
     then throw "No books found matching your search"
     else
       set_shoppingCart [] ;;;
       cart <- addToCart bookId quantity ;;
       let total := calculateTotal (Some cart) in
       if le total (literal 0) then throw "Invalid cart total"
       else
         paymentResult <- processPayment total paymentMethod ;;
         if negb (Payment.success paymentResult)
         then
           set_shoppingCart originalCart ;;;
           throw "Payment processing failed. Please try again."
         else
           inventoryUpdate <- updateInventory (Some cart) ;;
           set_shoppingCart [] ;;;
           t <- now ;;
           ret (Purchase.Order ("ORD-" ++ ofInt t)
                  (Payment.transactionId paymentResult) cart total
                  inventoryUpdate "Purchase completed successfully!"))
    (fun error =>
       set_shoppingCart originalCart ;;;
       ret (Purchase.Failed error "Purchase failed")).

Definition resetCart : M unit := set_shoppingCart [].

(** [bookDatabase[i].stock = v] *)
Definition setStockAt (i : nat) (v : Z) : M unit :=
  db <- get_bookDatabase ;;
  match List.nth_error db i with
  | None => throw "Cannot set properties of undefined (setting 'stock')"
  | Some b =>
      set_bookDatabase
        (List.firstn i db
         ++ Book.mk (Book.id b) (Book.title b) (Book.author b) (Book.price b) v
         :: List.skipn (S i) db)
  end.

Definition resetInventory : M unit :=
  setStockAt 0 5 ;;; setStockAt 1 3 ;;; setStockAt 2 0 ;;;
  setStockAt 3 7 ;;; setStockAt 4 4 ;;; setStockAt 5 2.

Definition getCart : M Cart :=
  cart <- get_shoppingCart ;; ret (deepCopy cart).

(** ** Coupons and shipping *)

Definition couponDatabase : list (string * Coupon.t) :=
  [ ("SAVE10", Coupon.mk Coupon.percentage 10 0);
    ("SAVE20", Coupon.mk Coupon.percentage 20 50);
    ("FLAT5", Coupon.mk Coupon.fixed 5 20);
    ("FREESHIP", Coupon.mk Coupon.free_shipping 0 0) ].

Definition standardShipping : Shipping.t :=
  Shipping.mk "Standard Shipping" (literal (599 # 100)) "5-7".

Definition shippingOptions : list (string * Shipping.t) :=
  [ ("standard", standardShipping);
    ("express", Shipping.mk "Express Shipping" (literal (1299 # 100)) "2-3");
    ("overnight", Shipping.mk "Overnight Shipping" (literal (2499 # 100)) "1");
    ("free", Shipping.mk "Free Shipping" (literal 0) "7-10") ].

(** Property lookup by name in one of the two tables. *)
Fixpoint lookup {A} (table : list (string * A)) (key : string) : option A :=
  match table with
  | [] => None
  | (k, v) :: r => if String.eqb k key then Some v else lookup r key
  end.

(** [couponCode] is [None] when the argument is null or left out. *)
Definition applyCoupon (couponCode : option string) (subtotal : number)
  : CouponResult.t :=
  match couponCode with
  | None => CouponResult.mk false (literal 0) None false "No coupon provided"
  | Some code =>
      if negb (truthy code)
      then CouponResult.mk false (literal 0) None false "No coupon provided"
      else
        match lookup couponDatabase (toUpperCase code) with
        | None => CouponResult.mk false (literal 0) None false "Invalid coupon code"
        | Some coupon =>
            if lt subtotal (ofZ (Coupon.minPurchase coupon))
            then CouponResult.mk false (literal 0) None false
                   ("Minimum purchase of " ++ ofInt (Coupon.minPurchase coupon)
                    ++ " required")
            else
              let discount :=
                match Coupon.type coupon with
                | Coupon.percentage =>
                    parseFloat
                      (toFixed (mul subtotal
                                    (div (ofZ (Coupon.value coupon)) (ofZ 100)))
                               2)
                | Coupon.fixed => ofZ (Coupon.value coupon)
                | Coupon.free_shipping => literal 0
                end in
              CouponResult.mk true discount (Some (Coupon.type coupon))
                match Coupon.type coupon with
                | Coupon.free_shipping => true
                | _ => false
                end
                "Coupon applied successfully"
        end
  end.

(** ** Pricing with coupon and shipping *)

Definition calculateTotalWithExtras
  (cart : option Cart) (couponCode : option string) (shippingMethod : string)
  : Pricing.t :=
  match cart with
  | None =>
      Pricing.mk (literal 0) (literal 0) (literal 0) (literal 0) None
                 (literal 0) None None
  | Some cart =>
      let subtotal := parseFloat (toFixed (sumLines cart) 2) in
      let couponResult := applyCoupon couponCode subtotal in
      let discount :=
        if CouponResult.valid couponResult
        then CouponResult.discount couponResult else literal 0 in
      let afterDiscount := sub subtotal discount in
      let tax := parseFloat (toFixed (mul afterDiscount (literal (1 # 10))) 2) in
      let shipping :=
        match lookup shippingOptions shippingMethod with
        | Some option => option
        | None => standardShipping
        end in
      let shippingCost :=
        if CouponResult.freeShipping couponResult
        then literal 0 else Shipping.cost shipping in
      let total :=
        parseFloat (toFixed (add (add afterDiscount tax) shippingCost) 2) in
      Pricing.mk subtotal discount tax shippingCost
                 (Some (Shipping.name shipping)) total
                 (Some (CouponResult.valid couponResult))
                 (Some (CouponResult.message couponResult))
  end.

(** ** E-mail *)

Definition sendEmailNotification
  (recipient : option string) (subject : string) (orderDetails : OrderDetails)
  : M EmailResult.t :=
  match recipient with
  | None => ret (EmailResult.NotSent "Invalid email address")
  | Some recipient =>
      if negb (truthy recipient) || negb (includes recipient "@")
      then ret (EmailResult.NotSent "Invalid email address")
      else
        t <- now ;;
        stamp <- now ;;
        let email :=
          Email.mk ("EMAIL-" ++ ofInt t) recipient subject orderDetails
                   stamp "sent" in
        log <- get_emailLog ;;
        set_emailLog (log ++ [email]) ;;;
        ret (EmailResult.Sent (Email.id email) ("Email sent to " ++ recipient))
  end.

Definition clearEmailLog : M unit := set_emailLog [].

Definition getEmailLog : M (list Email.t) := get_emailLog.

(** ** The purchase with coupon, shipping and e-mail *)

(** The [options] argument; a field left out is [None] and takes the
    default of the destructuring pattern. *)
Record Options : Type := mkOptions {
  couponCode : option string;
  shippingMethod : option string;
  customerEmail : option string
}.

Definition noOptions : Options := mkOptions None None None.

Definition completePurchaseWithExtras
  (searchQuery : string) (bookId quantity : Z) (paymentMethod : string)
  (options : Options) : M Purchase.t :=
  let couponCode := couponCode options in
  let shippingMethod :=
    match shippingMethod options with Some m => m | None => "standard" end in
  let customerEmail := customerEmail options in
  current <- get_shoppingCart ;;
  let originalCart := deepCopy current in
  try_catch
    (searchResults <- searchBooks searchQuery ;;
     if (List.length searchResults =? 0)%nat
     then throw "No books found matching your search"
     else
       set_shoppingCart [] ;;;
       cart <- addToCart bookId quantity ;;
       let pricing :=
         calculateTotalWithExtras (Some cart) couponCode shippingMethod in
       if le (Pricing.total pricing) (literal 0) then throw "Invalid cart total"
       else
         paymentResult <- processPayment (Pricing.total pricing) paymentMethod ;;
         if negb (Payment.success paymentResult)
         then
           set_shoppingCart originalCart ;;;
           throw "Payment processing failed. Please try again."
         else
           inventoryUpdate <- updateInventory (Some cart) ;;
           emailResult <-
             match customerEmail with
             | Some address =>
                 if truthy address then
                   t <- now ;;
                   r <- sendEmailNotification (Some address) "Order Confirmation"
                          (mkOrderDetails ("ORD-" ++ ofInt t) cart pricing
                             (Payment.transactionId paymentResult)) ;;
                   ret (Some r)
                 else ret None
             | None => ret None
             end ;;
           set_shoppingCart [] ;;;
           t <- now ;;
           ret (Purchase.OrderWithExtras ("ORD-" ++ ofInt t)
                  (Payment.transactionId paymentResult) cart pricing
                  inventoryUpdate
                  match emailResult with
                  | Some r => EmailResult.sent r
                  | None => false
                  end
                  match emailResult with
                  | Some r => EmailResult.emailId r
                  | None => None
                  end
                  "Purchase completed successfully!"))
    (fun error =>
       set_shoppingCart originalCart ;;;
       ret (Purchase.Failed error "Purchase failed")).

(** ** Sample hosts and states used by the examples *)

(** The host of the test suite: [Math.random] mocked to a constant [r],
    a clock that advances by one millisecond per reading, and the
    base-36 text of one half, which is [0.i]. *)
Definition mockedHost (r : number) : Host :=
  mkHost (fun _ => r) (fun n => Z.of_nat n + 1700000000000) (fun _ => "0.i").

Definition accepting : State := initialState (mockedHost (literal (5 # 10))).
Definition rejecting : State := initialState (mockedHost (literal (1 # 10))).

(** A cart of one line: [quantity] copies of book 1 at [unitPrice]. *)
Definition oneLine (unitPrice : Q) (quantity : Z) : Cart :=
  [(1, CartItem.mk (Book.mk 1 "The Great Gatsby" "F. Scott Fitzgerald"
                            (literal unitPrice) 5) quantity)].

(** The state [s] with its cart replaced. *)
Definition withCart (s : State) (c : Cart) : State :=
  mkState (bookDatabase s) c (emailLog s) (host s) (randomCalls s) (clockCalls s).

(** The quantity of [bookId] already in the cart, 0 if it has no line. *)
Definition quantityInCart (cart : Cart) (bookId : Z) : Z :=
  match JsObject.get cart bookId with
  | Some item => CartItem.quantity item
  | None => 0
  end.

(** ** Vocabulary of the properties *)

(** The state [s] with its catalog replaced. *)
Definition withDatabase (s : State) (db : list Book.t) : State :=
  mkState db (shoppingCart s) (emailLog s) (host s) (randomCalls s) (clockCalls s).

Definition withStock (b : Book.t) (v : Z) : Book.t :=
  Book.mk (Book.id b) (Book.title b) (Book.author b) (Book.price b) v.

(** A line passes the first loop when its book exists and holds enough. *)
Definition lineFits (db : list Book.t) (line : Z * CartItem.t) : bool :=
  match findBook db (fst line) with
  | Some b => negb (Book.stock b <? CartItem.quantity (snd line))
  | None => false
  end.

(** The error the first loop raises at a line that does not pass. *)
Definition offence (db : list Book.t) (line : Z * CartItem.t) : string :=
  match findBook db (fst line) with
  | Some b =>
      "Insufficient stock for " ++ quote ++ Book.title b ++ quote
      ++ ". Available: " ++ ofInt (Book.stock b)
      ++ ", Requested: " ++ ofInt (CartItem.quantity (snd line))
  | None => "Book with ID " ++ ofInt (fst line) ++ " not found in inventory"
  end.



(** Nothing but the counters of the host's tapes differs. *)
Definition sameStore (s s' : State) : Prop :=
  bookDatabase s' = bookDatabase s
  /\ shoppingCart s' = shoppingCart s
  /\ emailLog s' = emailLog s
  /\ host s' = host s.

Definition hasResults (searchQuery : string) (s : State) : bool :=
  match fst (searchBooks searchQuery s) with
  | inl (_ :: _) => true
  | _ => false
  end.

(** The stage at which an attempt fails, with the message it raises.
    [total] is the amount the variant charges for the cart: the result of
    [calculateTotal] for the basic purchase, the [total] of the breakdown
    for the extended one. *)
Inductive failureCause (total : Cart -> number)
  (searchQuery : string) (bookId quantity : Z) (paymentMethod : string)
  (s : State) : string -> Prop :=
| NoSearchResults :
    fst (searchBooks searchQuery s) = inl [] ->
    failureCause total searchQuery bookId quantity paymentMethod s
      "No books found matching your search"
| CartRejected e s1 :
    hasResults searchQuery s = true ->
    addToCart bookId quantity (withCart s []) = (inr e, s1) ->
    failureCause total searchQuery bookId quantity paymentMethod s e
| TotalNotPositive cart s1 :
    hasResults searchQuery s = true ->
    addToCart bookId quantity (withCart s []) = (inl cart, s1) ->
    le (total cart) (literal 0) = true ->
    failureCause total searchQuery bookId quantity paymentMethod s
      "Invalid cart total"
| PaymentRefused cart s1 e s2 :
    hasResults searchQuery s = true ->
    addToCart bookId quantity (withCart s []) = (inl cart, s1) ->
    le (total cart) (literal 0) = false ->
    processPayment (total cart) paymentMethod s1 = (inr e, s2) ->
    failureCause total searchQuery bookId quantity paymentMethod s e
| PaymentRejected cart s1 p s2 :
    hasResults searchQuery s = true ->
    addToCart bookId quantity (withCart s []) = (inl cart, s1) ->
    le (total cart) (literal 0) = false ->
    processPayment (total cart) paymentMethod s1 = (inl p, s2) ->
    Payment.success p = false ->
    failureCause total searchQuery bookId quantity paymentMethod s
      "Payment processing failed. Please try again."
| CommitFailed cart s1 p s2 e s3 :
    hasResults searchQuery s = true ->
    addToCart bookId quantity (withCart s []) = (inl cart, s1) ->
    le (total cart) (literal 0) = false ->
    processPayment (total cart) paymentMethod s1 = (inl p, s2) ->
    Payment.success p = true ->
    updateInventory (Some cart) s2 = (inr e, s3) ->
    failureCause total searchQuery bookId quantity paymentMethod s e.

(** What a purchase attempt leaves behind: after a failure, the catalog,
    the e-mail log and the cart of before; after a success, the catalog as
    [updateInventory] committed it for the one line bought. *)
Inductive attempt (total : Cart -> number)
  (searchQuery : string) (bookId quantity : Z) (paymentMethod : string)
  (s : State) (r : Purchase.t) (s' : State) : Prop :=
| AttemptFailed e :
    r = Purchase.Failed e "Purchase failed" ->
    failureCause total searchQuery bookId quantity paymentMethod s e ->
    sameStore s s' ->
    attempt total searchQuery bookId quantity paymentMethod s r s'
| AttemptPaid b s2 updates s3 :
    Purchase.success r = true ->
    bookDatabase s2 = bookDatabase s ->
    updateInventory (Some [(bookId, CartItem.mk b quantity)]) s2 = (inl updates, s3) ->
    bookDatabase s' = bookDatabase s3 ->
    shoppingCart s' = [] ->
    attempt total searchQuery bookId quantity paymentMethod s r s'.

(** The amount [completePurchaseWithExtras] charges under [options]. *)
Definition totalWithExtras (options : Options) (cart : Cart) : number :=
  Pricing.total
    (calculateTotalWithExtras (Some cart) (couponCode options)
       match shippingMethod options with Some m => m | None => "standard" end).

(** A call a client can make on the module; the three pure functions
    ([calculateTotal], [applyCoupon], [calculateTotalWithExtras]) touch no
    state and are left out. *)
Inductive Call : Type :=
| CallSearchBooks (query : string)
| CallAddToCart (bookId quantity : Z)
| CallProcessPayment (cartTotal : number) (paymentMethod : string)
| CallUpdateInventory (cart : option Cart)
| CallCompletePurchase (searchQuery : string) (bookId quantity : Z)
    (paymentMethod : string)
| CallResetCart
| CallResetInventory
| CallGetCart
| CallSendEmailNotification (recipient : option string) (subject : string)
    (orderDetails : OrderDetails)
| CallCompletePurchaseWithExtras (searchQuery : string) (bookId quantity : Z)
    (paymentMethod : string) (options : Options)
| CallClearEmailLog
| CallGetEmailLog.

(** The state a call leaves, whether it returns or throws. *)
Definition perform (c : Call) (s : State) : State :=
  match c with
  | CallSearchBooks q => snd (searchBooks q s)
  | CallAddToCart i q => snd (addToCart i q s)
  | CallProcessPayment t m => snd (processPayment t m s)
  | CallUpdateInventory cart => snd (updateInventory cart s)
  | CallCompletePurchase q i n m => snd (completePurchase q i n m s)
  | CallResetCart => snd (resetCart s)
  | CallResetInventory => snd (resetInventory s)
  | CallGetCart => snd (getCart s)
  | CallSendEmailNotification r sub d => snd (sendEmailNotification r sub d s)
  | CallCompletePurchaseWithExtras q i n m o =>
      snd (completePurchaseWithExtras q i n m o s)
  | CallClearEmailLog => snd (clearEmailLog s)
  | CallGetEmailLog => snd (getEmailLog s)
  end.

Definition performAll (calls : list Call) (s : State) : State :=
  List.fold_left (fun st c => perform c st) calls s.



(** [parseFloat(x.toFixed(2))], the rounding to cents of the source. *)
Definition round2 (x : number) : number := parseFloat (toFixed x 2).



(** The clock reading and the base-36 suffix an accepted payment made
    from state [s] puts in its id. *)
Definition instant (s : State) : Z := Date_now (host s) (clockCalls s).
Definition suffix (s : State) : string :=
  substr 2 9 (toString36 (host s) (Math_random (host s) (S (randomCalls s)))).

(** A host whose clock stands still and whose [Math.random] is mocked to
    one half, as in most of the test suite. *)
Definition frozenHost : Host :=
  mkHost (fun _ => literal (5 # 10)) (fun _ => 1700000000000) (fun _ => "0.i").

(** The number a binary64 value of the Standard Library's [SpecFloat]
    denotes, used to compare the arithmetic of [JsNumber] with it. *)
Definition ofSpecFloat (f : spec_float) : number :=
  match f with
  | S754_zero _ => Finite 0
  | S754_infinity s => Infinity s
  | S754_nan => NaN
  | S754_finite s m e =>
      Finite (Qred (inject_Z (if s then Z.neg m else Z.pos m) * pow2 e))
  end.

Definition sameNumber (x y : number) : bool :=
  match x, y with
  | NaN, NaN => true
  | Infinity a, Infinity b => Bool.eqb a b
  | Finite a, Finite b => Qeq_bool a b
  | _, _ => false
  end.

(** Product, sum, difference and quotient of a pair, computed both ways. *)
Definition agreesOn (xy : spec_float * spec_float) : bool :=
  let (x, y) := xy in
  sameNumber (ofSpecFloat (SFmul 53 1024 x y)) (mul (ofSpecFloat x) (ofSpecFloat y))
  && sameNumber (ofSpecFloat (SFadd 53 1024 x y)) (add (ofSpecFloat x) (ofSpecFloat y))
  && sameNumber (ofSpecFloat (SFsub 53 1024 x y)) (sub (ofSpecFloat x) (ofSpecFloat y))
  && sameNumber (ofSpecFloat (SFdiv 53 1024 x y)) (div (ofSpecFloat x) (ofSpecFloat y)).

(** Pairs of doubles, as mantissa and exponent: prices and rates of the
    shop, ties, subnormals and values near overflow. *)
Definition binary64Samples : list (spec_float * spec_float) :=
  [
    (* 12.99, 0.1 *)
    (S754_finite false 7312719894942843 (-49),
     S754_finite false 7205759403792794 (-56));
    (* 68.95, 6.895000000000001 *)
    (S754_finite false 4851924911049933 (-46),
     S754_finite false 7763079857679894 (-50));
    (* 68.95, 6.9 *)
    (S754_finite false 4851924911049933 (-46),
     S754_finite false 7768709357214106 (-50));
    (* 12.99, 1.3 *)
    (S754_finite false 7312719894942843 (-49),
     S754_finite false 5854679515581645 (-52));
    (* 11.69, 0.1 *)
    (S754_finite false 6580884955495137 (-49),
     S754_finite false 7205759403792794 (-56));
    (* 12.86, 5.99 *)
    (S754_finite false 7239536400998072 (-49),
     S754_finite false 6744140441987318 (-50));
    (* 0.015, 100 *)
    (S754_finite false 8646911284551352 (-59),
     S754_finite false 7036874417766400 (-46));
    (* -7.25, 0.335 *)
    (S754_finite true 8162774324609024 (-50),
     S754_finite false 6034823500676465 (-54));
    (* 1e21, 123456789.123 *)
    (S754_finite false 7629394531250000 (17),
     S754_finite false 8285044871132086 (-26));
    (* 1e308, 2 *)
    (S754_finite false 5010420900022432 (971),
     S754_finite false 4503599627370496 (-51));
    (* 1e308, 0.1 *)
    (S754_finite false 5010420900022432 (971),
     S754_finite false 7205759403792794 (-56));
    (* 5e-324, 0.1 *)
    (S754_finite false 1 (-1074),
     S754_finite false 7205759403792794 (-56));
    (* 2.5e-310, 3 *)
    (S754_finite false 50600563326828 (-1074),
     S754_finite false 6755399441055744 (-51));
    (* the largest double, twice *)
    (S754_finite false 9007199254740991 (971),
     S754_finite false 9007199254740991 (971))
  ].

(** The value of a number known to be finite and not below zero. *)
Definition nonNegative (x : number) : Prop :=
  match x with
  | NaN => False
  | Infinity s => s = false
  | Finite v => (0 <= v)%Q
  end.

(** The cents [toFixed(2)] prints for a magnitude [q]. *)
Definition cents (q : Q) : Z := Qfloor (q * inject_Z 100 + (1 # 2))%Q.

(** What a sum of prices can be: possibly NaN or infinite, but when
    finite it is the rounding of something that is not negative. *)
Definition summable (x : number) : Prop :=
  match x with
  | NaN => True
  | Infinity s => s = false
  | Finite v => (0 <= v < pow2 1024)%Q
  end.

(** A line fit for pricing: a price and a quantity that are not negative. *)
Definition pricedLine (line : Z * CartItem.t) : Prop :=
  ge (Book.price (CartItem.book (snd line))) (literal 0) = true
  /\ 0 <= CartItem.quantity (snd line).


(** [calculateTotal] as it would be if subtotal and tax were rounded
    where they are computed, the way the specification words it. *)
Definition calculateTotalRoundingEachStep (cart : Cart) : number :=
  let subtotal := round2 (sumLines cart) in
  let tax := round2 (mul subtotal (literal (1 # 10))) in
  round2 (add subtotal tax).

(** Three copies of book 2 and two of book 4, as [addToCart] builds it. *)
Definition fiveBooks : Cart :=
  [(2, CartItem.mk (Book.mk 2 "To Kill a Mockingbird" "Harper Lee"
                            (literal (1499 # 100)) 3) 3);
   (4, CartItem.mk (Book.mk 4 "Pride and Prejudice" "Jane Austen"
                            (literal (1199 # 100)) 7) 2)].

(** One copy each of books 1 and 2. *)
Definition twoBooks : Cart :=
  [(1, CartItem.mk (Book.mk 1 "The Great Gatsby" "F. Scott Fitzgerald"
                            (literal (1299 # 100)) 5) 1);
   (2, CartItem.mk (Book.mk 2 "To Kill a Mockingbird" "Harper Lee"
                            (literal (1499 # 100)) 3) 1)].

(** ** Vocabulary of the further properties *)


(** The next draw of [Math.random] in state [s]. *)
Definition draw (s : State) : number := Math_random (host s) (randomCalls s).

(** The state [s] after [draws] more calls of [Math.random] and [readings]
    more readings of the clock. *)
Definition later (s : State) (draws readings : nat) : State :=
  mkState (bookDatabase s) (shoppingCart s) (emailLog s) (host s)
          (draws + randomCalls s) (readings + clockCalls s).

(** [validMethods.includes(paymentMethod)] *)
Definition supported (paymentMethod : string) : bool :=
  existsb (String.eqb paymentMethod) validMethods.

(** The id of a payment accepted from state [s]. *)
Definition transactionIdFrom (s : State) : string :=
  "TXN-" ++ ofInt (instant s) ++ "-" ++ suffix s.

(** The checks a purchase attempt goes through, in the order of the two
    purchase functions, and the message of the first that fails; [None]
    when all pass.  [total] is the amount the variant charges. *)
Definition refusal (total : Cart -> number)
  (searchQuery : string) (bookId quantity : Z) (paymentMethod : string)
  (s : State) : option string :=
  if negb (hasResults searchQuery s)
  then Some "No books found matching your search"
  else
    match findBook (bookDatabase s) bookId with
    | None => Some ("Book with ID " ++ ofInt bookId ++ " not found")
    | Some b =>
        if quantity <=? 0 then Some "Quantity must be greater than 0"
        else if quantity >? Book.stock b
        then Some ("Only " ++ ofInt (Book.stock b) ++ " copies available")
        else if le (total [(bookId, CartItem.mk b quantity)]) (literal 0)
        then Some "Invalid cart total"
        else if negb (supported paymentMethod)
        then Some "Invalid payment method"
        else if gt (draw s) (literal (2 # 10)) then None
        else Some "Payment processing failed. Please try again."
    end.

(** The state a failed purchase leaves: the store of before; the clock
    has not been read and at most one number has been drawn. *)
Definition afterFailure (s s' : State) : Prop :=
  s' = later s 0 0 \/ s' = later s 1 0.

(** The message [sendEmailNotification] logs when a purchase made from
    state [s] confirms an order to [address]; none unless the address
    contains an at sign. *)
Definition confirmation (s : State) (address : option string) (cart : Cart)
  (pricing : Pricing.t) : option Email.t :=
  match address with
  | Some a =>
      if includes a "@"
      then Some (Email.mk
                   ("EMAIL-" ++ ofInt (Date_now (host s) (2 + clockCalls s)))
                   a "Order Confirmation"
                   (mkOrderDetails
                      ("ORD-" ++ ofInt (Date_now (host s) (1 + clockCalls s)))
                      cart pricing (Some (transactionIdFrom s)))
                   (Date_now (host s) (3 + clockCalls s)) "sent")
      else None
  | None => None
  end.

(** The readings of the clock the e-mail step of a purchase makes: one for
    the order id written in the message as soon as an address is given,
    two more for the id and the time stamp of a message that is sent. *)
Definition emailReadings (address : option string) : nat :=
  match address with
  | Some a => if includes a "@" then 3 else if truthy a then 1 else 0
  | None => 0
  end.

(** Fields of an order confirmation; absent from a failure record. *)
Definition itemsOf (r : Purchase.t) : option Cart :=
  match r with
  | Purchase.Order _ _ items _ _ _ => Some items
  | Purchase.OrderWithExtras _ _ items _ _ _ _ _ => Some items
  | Purchase.Failed _ _ => None
  end.

Definition inventoryUpdatedOf (r : Purchase.t) : option (JsObject.object Z) :=
  match r with
  | Purchase.Order _ _ _ _ updates _ => Some updates
  | Purchase.OrderWithExtras _ _ _ _ updates _ _ _ => Some updates
  | Purchase.Failed _ _ => None
  end.

Definition transactionIdOf (r : Purchase.t) : option string :=
  match r with
  | Purchase.Order _ t _ _ _ _ => t
  | Purchase.OrderWithExtras _ t _ _ _ _ _ _ => t
  | Purchase.Failed _ _ => None
  end.

Definition orderIdOf (r : Purchase.t) : option string :=
  match r with
  | Purchase.Order o _ _ _ _ _ => Some o
  | Purchase.OrderWithExtras o _ _ _ _ _ _ _ => Some o
  | Purchase.Failed _ _ => None
  end.

Definition pricingOf (r : Purchase.t) : option Pricing.t :=
  match r with
  | Purchase.OrderWithExtras _ _ _ pricing _ _ _ _ => Some pricing
  | _ => None
  end.

Definition emailSentOf (r : Purchase.t) : bool :=
  match r with
  | Purchase.OrderWithExtras _ _ _ _ _ sent _ _ => sent
  | _ => false
  end.

Definition emailIdOf (r : Purchase.t) : option string :=
  match r with
  | Purchase.OrderWithExtras _ _ _ _ _ _ i _ => i
  | _ => None
  end.

(** The amount an order confirmation states: the [total] of the basic
    purchase, the [total] of the pricing of the extended one. *)
Definition chargedOf (r : Purchase.t) : option number :=
  match r with
  | Purchase.Order _ _ _ total _ _ => Some total
  | Purchase.OrderWithExtras _ _ _ pricing _ _ _ _ => Some (Pricing.total pricing)
  | Purchase.Failed _ _ => None
  end.

(** The five numbers of a breakdown. *)
Definition amounts (p : Pricing.t) : number * number * number * number * number :=
  (Pricing.subtotal p, Pricing.discount p, Pricing.tax p, Pricing.shipping p,
   Pricing.total p).

(** What identifies a book of the catalog: everything but its stock. *)
Definition describe (b : Book.t) : Z * string * string * number :=
  (Book.id b, Book.title b, Book.author b, Book.price b).

(** Cart, e-mail log and host are the same, and so is the catalog but
    for the stocks. *)
Definition framed (s s' : State) : Prop :=
  shoppingCart s' = shoppingCart s
  /\ emailLog s' = emailLog s
  /\ host s' = host s
  /\ List.map describe (bookDatabase s') = List.map describe (bookDatabase s).

(** A message as [sendEmailNotification] logs it. *)
Definition wellAddressed (e : Email.t) : Prop :=
  includes (Email.to e) "@" = true /\ Email.status e = "sent".

Definition clearsTheLog (c : Call) : bool :=
  match c with CallClearEmailLog => true | _ => false end.

(** A line of the session cart as [addToCart] builds it: filed under the
    id of its book, for a positive quantity, the book being one of the
    catalog as far as id, title, author and price go. *)
Definition soundLine (line : Z * CartItem.t) : Prop :=
  Book.id (CartItem.book (snd line)) = fst line
  /\ 0 < CartItem.quantity (snd line)
  /\ In (describe (CartItem.book (snd line))) (List.map describe seedCatalog).

(** The session cart as the module keeps it: one line per book, in
    ascending order of the ids, every line sound. *)
Definition soundCart (cart : Cart) : Prop :=
  StronglySorted Z.lt (JsObject.keys cart) /\ Forall soundLine cart.

(** The line [addToCart] writes for [quantity] more copies of [b]: the
    book the line already holds, or a copy of [b], with the accumulated
    quantity. *)
Definition lineAfterAdding (cart : Cart) (b : Book.t) (quantity : Z)
  : CartItem.t :=
  CartItem.mk
    match JsObject.get cart (Book.id b) with
    | Some item => CartItem.book item
    | None => b
    end
    (quantityInCart cart (Book.id b) + quantity).

(** * Properties *)

(** ** Objects *)

Lemma get_set_same {A} (o : JsObject.object A) k v :
  JsObject.get (JsObject.set o k v) k = Some v.
Proof.
  induction o as [|[k' v'] r IH]; simpl.
  - now rewrite Z.eqb_refl.
  - destruct (k' =? k) eqn:E; simpl.
    + now rewrite Z.eqb_refl.
    + destruct (k <? k'); simpl.
      * now rewrite Z.eqb_refl.
      * now rewrite E.
Qed.

Lemma get_set_other {A} (o : JsObject.object A) k v j :
  j <> k -> JsObject.get (JsObject.set o k v) j = JsObject.get o j.
Proof.
  intros Hj. induction o as [|[k' v'] r IH]; simpl.
  - destruct (k =? j) eqn:E; [apply Z.eqb_eq in E; congruence | reflexivity].
  - destruct (k' =? k) eqn:E; simpl.
    + apply Z.eqb_eq in E; subst k'.
      destruct (k =? j) eqn:E'; [apply Z.eqb_eq in E'; congruence | reflexivity].
    + destruct (k <? k'); simpl.
      * destruct (k =? j) eqn:E'; [apply Z.eqb_eq in E'; congruence | reflexivity].
      * destruct (k' =? j); [reflexivity | exact IH].
Qed.

(** ** The cart *)

(** The three rejections of [addToCart] carry different messages, whatever
    the id and the stock they mention. *)
Lemma addToCart_messages_distinct (bookId available : Z) :
  "Book with ID " ++ ofInt bookId ++ " not found" <> "Quantity must be greater than 0"
  /\ "Book with ID " ++ ofInt bookId ++ " not found"
     <> "Only " ++ ofInt available ++ " copies available"
  /\ "Quantity must be greater than 0"
     <> "Only " ++ ofInt available ++ " copies available".
Proof. repeat split; discriminate. Qed.

(** What one call of [addToCart] does, validation by validation. *)
Lemma addToCart_outcome (bookId quantity : Z) (s : State) :
  match findBook (bookDatabase s) bookId with
  | None =>
      addToCart bookId quantity s
      = (inr ("Book with ID " ++ ofInt bookId ++ " not found"), s)
  | Some b =>
      if quantity <=? 0
      then addToCart bookId quantity s
           = (inr "Quantity must be greater than 0", s)
      else if Book.stock b <? quantityInCart (shoppingCart s) bookId + quantity
      then addToCart bookId quantity s
           = (inr ("Only " ++ ofInt (Book.stock b) ++ " copies available"), s)
      else exists cart',
          addToCart bookId quantity s = (inl cart', withCart s cart')
          /\ JsObject.get cart' bookId
             = Some (CartItem.mk
                       match JsObject.get (shoppingCart s) bookId with
                       | Some item => CartItem.book item
                       | None => b
                       end
                       (quantityInCart (shoppingCart s) bookId + quantity))
          /\ forall k, k <> bookId ->
               JsObject.get cart' k = JsObject.get (shoppingCart s) k
  end.
Proof.
  unfold addToCart, bind, get_bookDatabase, get_shoppingCart, throw, ret,
    quantityInCart, set_shoppingCart, deepCopy, withCart.
  destruct (findBook (bookDatabase s) bookId) as [b|]; [|reflexivity].
  destruct (quantity <=? 0); [reflexivity|].
  rewrite Z.gtb_ltb.
  destruct (JsObject.get (shoppingCart s) bookId) as [item|] eqn:G; simpl.
  - destruct (Book.stock b <? CartItem.quantity item + quantity); [reflexivity|].
    eexists; split; [reflexivity|]. split.
    + apply get_set_same.
    + intros k Hk. now apply get_set_other.
  - destruct (Book.stock b <? quantity); [reflexivity|].
    eexists; split; [reflexivity|]. split.
    + apply get_set_same.
    + intros k Hk. now apply get_set_other.
Qed.

Lemma addToCart_throw_state (bookId quantity : Z) (s s' : State) (e : string) :
  addToCart bookId quantity s = (inr e, s') -> s' = s.
Proof.
  intros H. pose proof (addToCart_outcome bookId quantity s) as V.
  destruct (findBook (bookDatabase s) bookId) as [b|].
  - destruct (quantity <=? 0); [congruence|].
    destruct (Book.stock b <? _); [congruence|].
    destruct V as (c & V & _). congruence.
  - congruence.
Qed.

Lemma addToCart_return_state (bookId quantity : Z) (s s' : State) (c : Cart) :
  addToCart bookId quantity s = (inl c, s') -> s' = withCart s c.
Proof.
  intros H. pose proof (addToCart_outcome bookId quantity s) as V.
  destruct (findBook (bookDatabase s) bookId) as [b|].
  - destruct (quantity <=? 0); [congruence|].
    destruct (Book.stock b <? _); [congruence|].
    destruct V as (c' & V & _). congruence.
  - congruence.
Qed.

(** C5. [addToCart] checks, in this order: the id is in the catalog (else
    the not-found error), the quantity is positive (else the quantity
    error), the quantity already in the cart plus the request fits the live
    stock (else the error that quotes the stock).  A rejected call leaves
    the state as it was.  An accepted call returns the new cart, in which
    the line of [bookId] holds the accumulated quantity and either the book
    it already held or a copy of the catalog entry, every other line being
    untouched.  The three errors never share a message.  Once a purchase
    has taken the last two copies of book 6, adding one more is refused
    with the message that only 0 copies are available. *)
Theorem addToCart_validation_order :
  (forall (bookId quantity : Z) (s : State),
    match findBook (bookDatabase s) bookId with
    | None =>
        addToCart bookId quantity s
        = (inr ("Book with ID " ++ ofInt bookId ++ " not found"), s)
    | Some b =>
        if quantity <=? 0
        then addToCart bookId quantity s
             = (inr "Quantity must be greater than 0", s)
        else if Book.stock b <? quantityInCart (shoppingCart s) bookId + quantity
        then addToCart bookId quantity s
             = (inr ("Only " ++ ofInt (Book.stock b) ++ " copies available"), s)
        else exists cart',
            addToCart bookId quantity s = (inl cart', withCart s cart')
            /\ JsObject.get cart' bookId
               = Some (CartItem.mk
                         match JsObject.get (shoppingCart s) bookId with
                         | Some item => CartItem.book item
                         | None => b
                         end
                         (quantityInCart (shoppingCart s) bookId + quantity))
            /\ forall k, k <> bookId ->
                 JsObject.get cart' k = JsObject.get (shoppingCart s) k
    end)
  /\ (forall bookId available : Z,
      "Book with ID " ++ ofInt bookId ++ " not found"
      <> "Quantity must be greater than 0"
      /\ "Book with ID " ++ ofInt bookId ++ " not found"
         <> "Only " ++ ofInt available ++ " copies available"
      /\ "Quantity must be greater than 0"
         <> "Only " ++ ofInt available ++ " copies available")
  /\ fst ((completePurchase "Brave" 6 2 "credit" ;;; addToCart 6 1) accepting)
     = inr "Only 0 copies available"
  /\ List.map Book.stock
       (bookDatabase (snd (completePurchase "Brave" 6 2 "credit" accepting)))
     = [5; 3; 0; 7; 4; 0].
Proof.
  split; [exact addToCart_outcome|].
  split; [exact addToCart_messages_distinct|].
  split; vm_compute; reflexivity.
Qed.

(** C9. A call of [addToCart] that throws leaves the session cart, and
    indeed the whole state, exactly as it was. *)
Theorem addToCart_throw_is_atomic (bookId quantity : Z) (s s' : State) (e : string) :
  addToCart bookId quantity s = (inr e, s') ->
  s' = s /\ shoppingCart s' = shoppingCart s.
Proof.
  intros H. apply addToCart_throw_state in H. subst. auto.
Qed.

Lemma addToCart_throw_is_atomic_witness :
  addToCart 6 3 accepting = (inr "Only 2 copies available", accepting)
  /\ accepting = accepting
  /\ shoppingCart accepting = shoppingCart accepting.
Proof.
  split; [reflexivity|].
  apply (addToCart_throw_is_atomic 6 3 accepting accepting
           "Only 2 copies available").
  reflexivity.
Defined.

(** ** Inventory commit *)

Lemma findBook_id db k b : findBook db k = Some b -> Book.id b = k.
Proof.
  unfold findBook. intros H. apply List.find_some in H.
  now apply Z.eqb_eq.
Qed.

Lemma findBook_setStock_same db k v b :
  findBook db k = Some b -> findBook (setStock db k v) k = Some (withStock b v).
Proof.
  induction db as [|b0 r IH]; simpl; [discriminate|].
  destruct (Book.id b0 =? k) eqn:E; simpl.
  - rewrite E. intros [= <-]. reflexivity.
  - rewrite E. exact IH.
Qed.

Lemma findBook_setStock_other db k v j :
  j <> k -> findBook (setStock db k v) j = findBook db j.
Proof.
  intros Hj. induction db as [|b0 r IH]; simpl; [reflexivity|].
  destruct (Book.id b0 =? k) eqn:E; simpl.
  - apply Z.eqb_eq in E.
    destruct (Book.id b0 =? j) eqn:E'; [apply Z.eqb_eq in E'; congruence|].
    reflexivity.
  - destruct (Book.id b0 =? j); [reflexivity | exact IH].
Qed.

Lemma validateLines_state cart s : snd (validateLines cart s) = s.
Proof.
  induction cart as [|[k item] r IH]; simpl; [reflexivity|].
  unfold bind, get_bookDatabase, throw.
  destruct (findBook (bookDatabase s) k) as [b|]; [|reflexivity].
  destruct (Book.stock b <? CartItem.quantity item); [reflexivity | exact IH].
Qed.

Lemma validateLines_pass cart s :
  forallb (lineFits (bookDatabase s)) cart = true ->
  validateLines cart s = (inl tt, s).
Proof.
  induction cart as [|[k item] r IH]; simpl; [reflexivity|].
  unfold lineFits at 1; simpl. unfold bind, get_bookDatabase.
  destruct (findBook (bookDatabase s) k) as [b|]; [|discriminate].
  destruct (Book.stock b <? CartItem.quantity item); [discriminate|].
  exact IH.
Qed.

Lemma validateLines_fail cart s :
  forallb (lineFits (bookDatabase s)) cart = false ->
  exists before line after,
    cart = (before ++ line :: after)%list
    /\ forallb (lineFits (bookDatabase s)) before = true
    /\ lineFits (bookDatabase s) line = false
    /\ validateLines cart s = (inr (offence (bookDatabase s) line), s).
Proof.
  induction cart as [|[k item] r IH]; simpl; [discriminate|].
  destruct (lineFits (bookDatabase s) (k, item)) eqn:F; simpl.
  - intros H. destruct (IH H) as (pre & line & post & -> & Hpre & Hline & Hrun).
    exists ((k, item) :: pre), line, post. simpl. rewrite F, Hpre.
    repeat split; auto.
    revert F. unfold lineFits, bind, get_bookDatabase; simpl.
    destruct (findBook (bookDatabase s) k) as [b|]; [|discriminate].
    destruct (Book.stock b <? CartItem.quantity item); [discriminate|].
    intros _. exact Hrun.
  - intros _. exists [], (k, item), r. repeat split; auto.
    revert F. unfold lineFits, offence, bind, get_bookDatabase, throw; simpl.
    destruct (findBook (bookDatabase s) k) as [b|]; [|reflexivity].
    destruct (Book.stock b <? CartItem.quantity item); [reflexivity|discriminate].
Qed.


Lemma findBook_setStock_found db k v j b :
  findBook db j = Some b -> exists b', findBook (setStock db k v) j = Some b'.
Proof.
  intros F. destruct (Z.eq_dec j k) as [->|Hj].
  - exists (withStock b v). apply findBook_setStock_same. exact F.
  - exists b. rewrite findBook_setStock_other; assumption.
Qed.

(** Once every key resolves to a book, the second loop cannot throw. *)
Lemma applyLines_returns cart :
  forall s updates,
    forallb (fun line =>
               match findBook (bookDatabase s) (fst line) with
               | Some _ => true
               | None => false
               end) cart = true ->
    exists updates' db', applyLines cart updates s = (inl updates', withDatabase s db').
Proof.
  induction cart as [|[k0 item0] r IH]; intros s updates H.
  - exists updates, (bookDatabase s). destruct s; reflexivity.
  - simpl in H. apply andb_true_iff in H. destruct H as [H0 H].
    destruct (findBook (bookDatabase s) k0) as [b0|] eqn:F0; [|discriminate].
    set (v0 := Book.stock b0 - CartItem.quantity item0).
    destruct (IH (withDatabase s (setStock (bookDatabase s) k0 v0))
                 (JsObject.set updates k0 v0)) as (u & db' & Hrun).
    { apply forallb_forall. intros line Hin.
      rewrite forallb_forall in H. specialize (H line Hin). simpl.
      destruct (findBook (bookDatabase s) (fst line)) as [b|] eqn:F; [|discriminate].
      destruct (findBook_setStock_found _ k0 v0 _ _ F) as (b' & ->). reflexivity. }
    exists u, db'. simpl. unfold bind, get_bookDatabase, set_bookDatabase.
    rewrite F0. exact Hrun.
Qed.

Lemma lineFits_found db cart :
  forallb (lineFits db) cart = true ->
  forallb (fun line =>
             match findBook db (fst line) with
             | Some _ => true
             | None => false
             end) cart = true.
Proof.
  intros H. apply forallb_forall. intros line Hin.
  rewrite forallb_forall in H. specialize (H line Hin).
  unfold lineFits in H. now destruct (findBook db (fst line)).
Qed.

(** A throwing [updateInventory] has changed nothing. *)
Lemma updateInventory_throw_state cart s s' e :
  updateInventory cart s = (inr e, s') -> s' = s.
Proof.
  destruct cart as [cart|]; simpl; [|unfold throw; congruence].
  unfold bind.
  destruct (forallb (lineFits (bookDatabase s)) cart) eqn:F.
  - rewrite (validateLines_pass _ _ F).
    destruct (applyLines_returns cart s [] (lineFits_found _ _ F)) as (u & db' & ->).
    discriminate.
  - destruct (validateLines_fail _ _ F) as (pre & line & post & _ & _ & _ & ->).
    congruence.
Qed.




(** ** Frames of the individual steps *)

Lemma sameStore_refl s : sameStore s s.
Proof. repeat split. Qed.

Lemma searchBooks_run query s : exists l, searchBooks query s = (inl l, s).
Proof.
  unfold searchBooks. destruct (negb (truthy query)); eexists; reflexivity.
Qed.

Lemma processPayment_frame cartTotal paymentMethod s :
  exists r s', processPayment cartTotal paymentMethod s = (r, s') /\ sameStore s s'.
Proof.
  unfold processPayment, bind, random, now, toString36Of, throw, ret.
  destruct (le cartTotal (literal 0)); [do 2 eexists; split; [reflexivity|apply sameStore_refl]|].
  destruct (negb _); [do 2 eexists; split; [reflexivity|apply sameStore_refl]|].
  cbv beta iota.
  match goal with |- context [if ?c then _ else _] => destruct c end;
    do 2 eexists; (split; [reflexivity|]); repeat split.
Qed.

Lemma sendEmailNotification_returns recipient subject details s :
  exists r s', sendEmailNotification recipient subject details s = (inl r, s')
               /\ bookDatabase s' = bookDatabase s
               /\ shoppingCart s' = shoppingCart s.
Proof.
  unfold sendEmailNotification.
  destruct recipient as [recipient|]; [|do 2 eexists; repeat split].
  destruct (negb (truthy recipient) || negb (includes recipient "@"));
    do 2 eexists; repeat split.
Qed.

(** On an emptied cart an accepted [addToCart] yields a single line. *)
Lemma addToCart_single_line bookId quantity s cart s' :
  addToCart bookId quantity (withCart s []) = (inl cart, s') ->
  exists b, cart = [(bookId, CartItem.mk b quantity)]
            /\ s' = withCart s cart.
Proof.
  unfold addToCart, bind, get_bookDatabase, get_shoppingCart, throw, ret,
    set_shoppingCart, deepCopy, withCart; cbn -[findBook].
  destruct (findBook (bookDatabase s) bookId) as [b|]; [|discriminate].
  destruct (quantity <=? 0); [discriminate|]. cbn.
  destruct (quantity >? Book.stock b); [discriminate|].
  intros [= <- <-]. exists b. split; reflexivity.
Qed.

(** ** Why a purchase attempt fails *)

Ltac store_unchanged :=
  repeat match goal with
         | H : sameStore _ _ |- _ => destruct H as (? & ? & ? & ?)
         end;
  unfold sameStore; simpl in *; repeat split; congruence.

Lemma length_zero_nil {A} (l : list A) : (List.length l =? 0)%nat = true -> l = [].
Proof. destruct l; [reflexivity | discriminate]. Qed.

(** One run of [completePurchase], stage by stage. *)
Lemma completePurchase_attempt searchQuery bookId quantity paymentMethod s :
  exists r s',
    completePurchase searchQuery bookId quantity paymentMethod s = (inl r, s')
    /\ attempt (fun cart => calculateTotal (Some cart))
               searchQuery bookId quantity paymentMethod s r s'.
Proof.
  unfold completePurchase, try_catch, bind, get_shoppingCart, deepCopy.
  destruct (searchBooks_run searchQuery s) as [l Hl]. rewrite Hl.
  destruct (List.length l =? 0)%nat eqn:El.
  { apply length_zero_nil in El. subst l.
    do 2 eexists. split; [reflexivity|].
    eapply AttemptFailed; [reflexivity| |store_unchanged].
    apply NoSearchResults. now rewrite Hl. }
  assert (Hr : hasResults searchQuery s = true).
  { unfold hasResults. rewrite Hl. destruct l; [discriminate | reflexivity]. }
  unfold set_shoppingCart at 1.
  change (mkState (bookDatabase s) [] (emailLog s) (host s) (randomCalls s)
                  (clockCalls s)) with (withCart s []).
  destruct (addToCart bookId quantity (withCart s [])) as [[cart|e] s1] eqn:A.
  2:{ pose proof (addToCart_throw_state _ _ _ _ _ A) as ->.
      do 2 eexists. split; [reflexivity|].
      eapply AttemptFailed; [reflexivity| |store_unchanged].
      eapply CartRejected; [exact Hr | exact A]. }
  destruct (addToCart_single_line _ _ _ _ _ A) as (b & Hcart & Hs1).
  destruct (le (calculateTotal (Some cart)) (literal 0)) eqn:T.
  { do 2 eexists. split; [reflexivity|].
    eapply AttemptFailed; [reflexivity| |subst s1; store_unchanged].
    eapply TotalNotPositive; [exact Hr | exact A | exact T]. }
  destruct (processPayment_frame (calculateTotal (Some cart)) paymentMethod s1)
    as (pr & s2 & P & Hsame).
  rewrite P. destruct pr as [p|e].
  2:{ do 2 eexists. split; [reflexivity|].
      eapply AttemptFailed; [reflexivity| |subst s1; store_unchanged].
      eapply PaymentRefused; [exact Hr | exact A | exact T | exact P]. }
  destruct (Payment.success p) eqn:Ps; cbn [negb].
  2:{ do 2 eexists. split; [reflexivity|].
      eapply AttemptFailed; [reflexivity| |subst s1; store_unchanged].
      eapply PaymentRejected; [exact Hr | exact A | exact T | exact P | exact Ps]. }
  destruct (updateInventory (Some cart) s2) as [[u|e] s3] eqn:U.
  2:{ pose proof (updateInventory_throw_state _ _ _ _ U) as ->.
      do 2 eexists. split; [reflexivity|].
      eapply AttemptFailed; [reflexivity| |subst s1; store_unchanged].
      eapply CommitFailed; [exact Hr | exact A | exact T | exact P | exact Ps | exact U]. }
  do 2 eexists. split; [reflexivity|].
  eapply (AttemptPaid _ _ _ _ _ _ _ _ b s2 u s3); try reflexivity.
  - subst s1. destruct Hsame as (-> & _). reflexivity.
  - rewrite <- Hcart. exact U.
Qed.

(** One run of [completePurchaseWithExtras], stage by stage. *)
Lemma completePurchaseWithExtras_attempt
  searchQuery bookId quantity paymentMethod options s :
  exists r s',
    completePurchaseWithExtras searchQuery bookId quantity paymentMethod options s
    = (inl r, s')
    /\ attempt (totalWithExtras options)
               searchQuery bookId quantity paymentMethod s r s'.
Proof.
  unfold completePurchaseWithExtras, totalWithExtras, try_catch, bind,
    get_shoppingCart, deepCopy.
  destruct (searchBooks_run searchQuery s) as [l Hl]. rewrite Hl.
  destruct (List.length l =? 0)%nat eqn:El.
  { apply length_zero_nil in El. subst l.
    do 2 eexists. split; [reflexivity|].
    eapply AttemptFailed; [reflexivity| |store_unchanged].
    apply NoSearchResults. now rewrite Hl. }
  assert (Hr : hasResults searchQuery s = true).
  { unfold hasResults. rewrite Hl. destruct l; [discriminate | reflexivity]. }
  unfold set_shoppingCart at 1.
  change (mkState (bookDatabase s) [] (emailLog s) (host s) (randomCalls s)
                  (clockCalls s)) with (withCart s []).
  destruct (addToCart bookId quantity (withCart s [])) as [[cart|e] s1] eqn:A.
  2:{ pose proof (addToCart_throw_state _ _ _ _ _ A) as ->.
      do 2 eexists. split; [reflexivity|].
      eapply AttemptFailed; [reflexivity| |store_unchanged].
      eapply CartRejected; [exact Hr | exact A]. }
  destruct (addToCart_single_line _ _ _ _ _ A) as (b & Hcart & Hs1).
  set (pricing := calculateTotalWithExtras (Some cart) _ _).
  destruct (le (Pricing.total pricing) (literal 0)) eqn:T.
  { do 2 eexists. split; [reflexivity|].
    eapply AttemptFailed; [reflexivity| |subst s1; store_unchanged].
    eapply TotalNotPositive; [exact Hr | exact A | exact T]. }
  destruct (processPayment_frame (Pricing.total pricing) paymentMethod s1)
    as (pr & s2 & P & Hsame).
  rewrite P. destruct pr as [p|e].
  2:{ do 2 eexists. split; [reflexivity|].
      eapply AttemptFailed; [reflexivity| |subst s1; store_unchanged].
      eapply PaymentRefused; [exact Hr | exact A | exact T | exact P]. }
  destruct (Payment.success p) eqn:Ps; cbn [negb].
  2:{ do 2 eexists. split; [reflexivity|].
      eapply AttemptFailed; [reflexivity| |subst s1; store_unchanged].
      eapply PaymentRejected; [exact Hr | exact A | exact T | exact P | exact Ps]. }
  destruct (updateInventory (Some cart) s2) as [[u|e] s3] eqn:U.
  2:{ pose proof (updateInventory_throw_state _ _ _ _ U) as ->.
      do 2 eexists. split; [reflexivity|].
      eapply AttemptFailed; [reflexivity| |subst s1; store_unchanged].
      eapply CommitFailed; [exact Hr | exact A | exact T | exact P | exact Ps | exact U]. }
  assert (Hdb2 : bookDatabase s2 = bookDatabase s).
  { subst s1. destruct Hsame as (-> & _). reflexivity. }
  rewrite Hcart in U.
  destruct (customerEmail options) as [address|].
  2:{ do 2 eexists. split; [reflexivity|].
      eapply (AttemptPaid _ _ _ _ _ _ _ _ b s2 u s3); try reflexivity; assumption. }
  destruct (truthy address).
  2:{ do 2 eexists. split; [reflexivity|].
      eapply (AttemptPaid _ _ _ _ _ _ _ _ b s2 u s3); try reflexivity; assumption. }
  unfold now at 1.
  match goal with
  | |- context [sendEmailNotification ?a ?b ?c ?st] =>
      destruct (sendEmailNotification_returns a b c st) as (er & s4 & E & Hdb4 & _);
      rewrite E
  end.
  do 2 eexists. split; [reflexivity|].
  eapply (AttemptPaid _ _ _ _ _ _ _ _ b s2 u s3); try reflexivity; try assumption.
Qed.

Lemma hasResults_run searchQuery s :
  hasResults searchQuery s = true ->
  exists l, searchBooks searchQuery s = (inl l, s) /\ (List.length l =? 0)%nat = false.
Proof.
  unfold hasResults. destruct (searchBooks_run searchQuery s) as [l ->]. simpl.
  destruct l; [discriminate|]. intros _. eexists. split; reflexivity.
Qed.

Lemma noResults_run searchQuery s :
  fst (searchBooks searchQuery s) = inl [] -> searchBooks searchQuery s = (inl [], s).
Proof.
  destruct (searchBooks_run searchQuery s) as [l ->]. simpl. now intros [= ->].
Qed.

Ltac enter_purchase s :=
  unfold try_catch, bind, get_shoppingCart, deepCopy;
  match goal with
  | H : fst (searchBooks _ _) = inl [] |- _ =>
      rewrite (noResults_run _ _ H); simpl
  | H : hasResults _ _ = true |- _ =>
      let l := fresh "l" in
      let Hl := fresh "Hl" in
      let El := fresh "El" in
      destruct (hasResults_run _ _ H) as (l & Hl & El);
      rewrite Hl, El;
      unfold set_shoppingCart at 1;
      change (mkState (bookDatabase s) [] (emailLog s) (host s) (randomCalls s)
                      (clockCalls s)) with (withCart s [])
  end.

Ltac payment_frame P :=
  match type of P with
  | processPayment ?t ?m ?st = (_, ?s2) =>
      let r' := fresh "r" in
      let s' := fresh "s" in
      let P' := fresh "P" in
      let Hs := fresh "Hs" in
      destruct (processPayment_frame t m st) as (r' & s' & P' & Hs);
      rewrite P in P'; injection P' as _ <-
  end.

(** Each cause of failure makes [completePurchase] report it and return
    with the store of before. *)
Lemma completePurchase_reports searchQuery bookId quantity paymentMethod s e :
  failureCause (fun cart => calculateTotal (Some cart))
               searchQuery bookId quantity paymentMethod s e ->
  exists s',
    completePurchase searchQuery bookId quantity paymentMethod s
    = (inl (Purchase.Failed e "Purchase failed"), s')
    /\ sameStore s s'.
Proof.
  intros C. unfold completePurchase.
  destruct C as [H | e s1 H A | cart s1 H A T | cart s1 e s2 H A T P
                | cart s1 p s2 H A T P Ps | cart s1 p s2 e s3 H A T P Ps U];
    enter_purchase s.
  - eexists. split; [reflexivity | store_unchanged].
  - rewrite A. pose proof (addToCart_throw_state _ _ _ _ _ A) as ->.
    eexists. split; [reflexivity | store_unchanged].
  - rewrite A, T. pose proof (addToCart_return_state _ _ _ _ _ A) as ->.
    eexists. split; [reflexivity | store_unchanged].
  - rewrite A, T, P. pose proof (addToCart_return_state _ _ _ _ _ A) as ->.
    payment_frame P.
    eexists. split; [reflexivity | store_unchanged].
  - rewrite A, T, P, Ps. pose proof (addToCart_return_state _ _ _ _ _ A) as ->.
    payment_frame P.
    eexists. split; [reflexivity | store_unchanged].
  - rewrite A, T, P, Ps. cbn [negb]. rewrite U.
    pose proof (addToCart_return_state _ _ _ _ _ A) as ->.
    pose proof (updateInventory_throw_state _ _ _ _ U) as ->.
    payment_frame P.
    eexists. split; [reflexivity | store_unchanged].
Qed.

Lemma completePurchaseWithExtras_reports
  searchQuery bookId quantity paymentMethod options s e :
  failureCause (totalWithExtras options)
               searchQuery bookId quantity paymentMethod s e ->
  exists s',
    completePurchaseWithExtras searchQuery bookId quantity paymentMethod options s
    = (inl (Purchase.Failed e "Purchase failed"), s')
    /\ sameStore s s'.
Proof.
  intros C. unfold completePurchaseWithExtras.
  destruct C as [H | e s1 H A | cart s1 H A T | cart s1 e s2 H A T P
                | cart s1 p s2 H A T P Ps | cart s1 p s2 e s3 H A T P Ps U];
    unfold totalWithExtras in *; enter_purchase s.
  - eexists. split; [reflexivity | store_unchanged].
  - rewrite A. pose proof (addToCart_throw_state _ _ _ _ _ A) as ->.
    eexists. split; [reflexivity | store_unchanged].
  - rewrite A, T. pose proof (addToCart_return_state _ _ _ _ _ A) as ->.
    eexists. split; [reflexivity | store_unchanged].
  - rewrite A, T, P. pose proof (addToCart_return_state _ _ _ _ _ A) as ->.
    payment_frame P.
    eexists. split; [reflexivity | store_unchanged].
  - rewrite A, T, P, Ps. pose proof (addToCart_return_state _ _ _ _ _ A) as ->.
    payment_frame P.
    eexists. split; [reflexivity | store_unchanged].
  - rewrite A, T, P, Ps. cbn [negb]. rewrite U.
    pose proof (addToCart_return_state _ _ _ _ _ A) as ->.
    pose proof (updateInventory_throw_state _ _ _ _ U) as ->.
    payment_frame P.
    eexists. split; [reflexivity | store_unchanged].
Qed.

(** ** Purchases *)

(** C1. Whatever the cart and the arguments, [completePurchase] and
    [completePurchaseWithExtras] return a result and never throw.  When a
    stage of the attempt fails (no search result, a cart validation, a
    total that is not positive, a refused or rejected payment, a failed
    inventory commit) the result is the failure record carrying that
    stage's message and "Purchase failed", and the session cart is the one
    of before the call.  A result that is not a success always comes from
    such a failed stage. *)
Theorem failed_purchase_reports_and_restores
  (searchQuery : string) (bookId quantity : Z) (paymentMethod : string)
  (options : Options) (s : State) :
  (exists r s',
      completePurchase searchQuery bookId quantity paymentMethod s = (inl r, s')
      /\ (forall e,
             failureCause (fun cart => calculateTotal (Some cart))
                          searchQuery bookId quantity paymentMethod s e ->
             r = Purchase.Failed e "Purchase failed"
             /\ Purchase.success r = false
             /\ shoppingCart s' = shoppingCart s)
      /\ (Purchase.success r = false ->
          exists e,
            failureCause (fun cart => calculateTotal (Some cart))
                         searchQuery bookId quantity paymentMethod s e
            /\ r = Purchase.Failed e "Purchase failed"
            /\ shoppingCart s' = shoppingCart s))
  /\ (exists r s',
      completePurchaseWithExtras searchQuery bookId quantity paymentMethod
        options s = (inl r, s')
      /\ (forall e,
             failureCause (totalWithExtras options)
                          searchQuery bookId quantity paymentMethod s e ->
             r = Purchase.Failed e "Purchase failed"
             /\ Purchase.success r = false
             /\ shoppingCart s' = shoppingCart s)
      /\ (Purchase.success r = false ->
          exists e,
            failureCause (totalWithExtras options)
                         searchQuery bookId quantity paymentMethod s e
            /\ r = Purchase.Failed e "Purchase failed"
            /\ shoppingCart s' = shoppingCart s)).
Proof.
  split.
  - destruct (completePurchase_attempt searchQuery bookId quantity paymentMethod s)
      as (r & s' & Hrun & Hat).
    exists r, s'. split; [exact Hrun|]. split.
    + intros e C.
      destruct (completePurchase_reports _ _ _ _ _ _ C) as (s'' & Hrun' & Hs).
      rewrite Hrun in Hrun'. injection Hrun' as -> ->.
      repeat split. apply Hs.
    + intros Hf. destruct Hat as [e -> C Hs | b s2 u s3 Hsucc]; [|congruence].
      exists e. repeat split; [exact C | apply Hs].
  - destruct (completePurchaseWithExtras_attempt
                searchQuery bookId quantity paymentMethod options s)
      as (r & s' & Hrun & Hat).
    exists r, s'. split; [exact Hrun|]. split.
    + intros e C.
      destruct (completePurchaseWithExtras_reports _ _ _ _ _ _ _ C)
        as (s'' & Hrun' & Hs).
      rewrite Hrun in Hrun'. injection Hrun' as -> ->.
      repeat split. apply Hs.
    + intros Hf. destruct Hat as [e -> C Hs | b s2 u s3 Hsucc]; [|congruence].
      exists e. repeat split; [exact C | apply Hs].
Qed.

Lemma failed_purchase_reports_and_restores_witness :
  let s := snd (addToCart 2 1 rejecting) in
  shoppingCart s <> []
  /\ fst (completePurchase "Gatsby" 1 1 "credit" s)
     = inl (Purchase.Failed "Payment processing failed. Please try again."
                            "Purchase failed")
  /\ shoppingCart (snd (completePurchase "Gatsby" 1 1 "credit" s)) = shoppingCart s.
Proof.
  intros s. split; [discriminate|].
  destruct (failed_purchase_reports_and_restores
              "Gatsby" 1 1 "credit" noOptions s)
    as [(r & s' & Hrun & Hfail & _) _].
  rewrite Hrun. simpl.
  destruct (Hfail "Payment processing failed. Please try again.")
    as (-> & _ & Hcart).
  - pose (cart := oneLine (1299 # 100) 1).
    pose (s1 := withCart s cart).
    pose (s2 := mkState (bookDatabase s1) (shoppingCart s1) (emailLog s1)
                        (host s1) (S (randomCalls s1)) (clockCalls s1)).
    apply (PaymentRejected _ _ _ _ _ _ cart s1 (Payment.mk false None) s2);
      vm_compute; reflexivity.
  - split; [reflexivity | exact Hcart].
Defined.

(** When the draw of [Math.random] is not above 0.2, a payment made with
    a positive total and a supported method is rejected. *)
Lemma processPayment_rejects cartTotal paymentMethod s :
  le cartTotal (literal 0) = false ->
  existsb (String.eqb paymentMethod) validMethods = true ->
  gt (Math_random (host s) (randomCalls s)) (literal (2 # 10)) = false ->
  exists s', processPayment cartTotal paymentMethod s = (inl (Payment.mk false None), s').
Proof.
  intros Ht Hm Hr. unfold processPayment, bind, random, ret.
  rewrite Ht, Hm. cbv beta iota. cbn [negb host randomCalls]. rewrite Hr.
  eexists. reflexivity.
Qed.

(** C6. When the payment step of [completePurchaseWithExtras] is reached
    (the search found something, the cart accepted the line, the total is
    positive, the method is supported) and the draw of [Math.random] is not
    above 0.2, the payment is rejected and the purchase fails with the
    payment message; the catalog, and so every stock, is the one of before,
    the e-mail log is the one of before, and so is the cart, whatever coupon
    code and customer address the options carry. *)
Theorem rejected_payment_has_no_side_effect
  (searchQuery : string) (bookId quantity : Z) (paymentMethod : string)
  (options : Options) (s : State) (cart : Cart) (s1 : State) :
  hasResults searchQuery s = true ->
  addToCart bookId quantity (withCart s []) = (inl cart, s1) ->
  le (totalWithExtras options cart) (literal 0) = false ->
  existsb (String.eqb paymentMethod) validMethods = true ->
  gt (Math_random (host s) (randomCalls s)) (literal (2 # 10)) = false ->
  exists s',
    completePurchaseWithExtras searchQuery bookId quantity paymentMethod options s
    = (inl (Purchase.Failed "Payment processing failed. Please try again."
                            "Purchase failed"), s')
    /\ bookDatabase s' = bookDatabase s
    /\ List.map Book.stock (bookDatabase s') = List.map Book.stock (bookDatabase s)
    /\ emailLog s' = emailLog s
    /\ shoppingCart s' = shoppingCart s.
Proof.
  intros Hr A T Hm Hd.
  pose proof (addToCart_return_state _ _ _ _ _ A) as Hs1.
  destruct (processPayment_rejects (totalWithExtras options cart) paymentMethod s1 T Hm)
    as (s2 & P).
  { subst s1. exact Hd. }
  destruct (completePurchaseWithExtras_reports
              searchQuery bookId quantity paymentMethod options s
              "Payment processing failed. Please try again.")
    as (s' & Hrun & Hdb & Hcart & Hlog & _).
  { eapply PaymentRejected; [exact Hr | exact A | exact T | exact P | reflexivity]. }
  exists s'. rewrite Hdb. repeat split; assumption.
Qed.

Lemma rejected_payment_has_no_side_effect_witness :
  let options := mkOptions (Some "SAVE10") None (Some "buyer@example.com") in
  exists s',
    completePurchaseWithExtras "Gatsby" 1 1 "credit" options rejecting
    = (inl (Purchase.Failed "Payment processing failed. Please try again."
                            "Purchase failed"), s')
    /\ bookDatabase s' = bookDatabase rejecting
    /\ List.map Book.stock (bookDatabase s')
       = List.map Book.stock (bookDatabase rejecting)
    /\ emailLog s' = emailLog rejecting
    /\ shoppingCart s' = shoppingCart rejecting.
Proof.
  intros options.
  apply (rejected_payment_has_no_side_effect
           "Gatsby" 1 1 "credit" options rejecting
           (oneLine (1299 # 100) 1)
           (withCart rejecting (oneLine (1299 # 100) 1)));
    vm_compute; reflexivity.
Defined.

(** ** Stock never goes negative *)











(** ** Coupons and pricing *)





(** ** Transaction ids *)

(** The digits of two numerals followed by a dash can be told apart. *)
Lemma digits_dash_inj d1 :
  forall d2 x1 x2,
    NilEmpty.string_of_uint d1 ++ String "-" x1
    = NilEmpty.string_of_uint d2 ++ String "-" x2 ->
    d1 = d2 /\ x1 = x2.
Proof.
  induction d1; intros d2 x1 x2 H; destruct d2; simpl in H;
    try discriminate H;
    try (injection H as H; destruct (IHd1 _ _ _ H) as [-> ->]; split; reflexivity).
  injection H as ->. split; reflexivity.
Qed.

(** The text of a whole number: an optional sign and at least one digit. *)
Lemma ofInt_form (z : Z) :
  exists (negative : bool) (u : Decimal.uint),
    u <> Decimal.Nil
    /\ Z.to_int z = (if negative then Decimal.Neg u else Decimal.Pos u)
    /\ ofInt z = (if negative
                  then String "-" (NilEmpty.string_of_uint u)
                  else NilEmpty.string_of_uint u).
Proof.
  unfold ofInt. destruct z as [|p|p]; simpl.
  - exists false, (Decimal.D0 Decimal.Nil). repeat split. discriminate.
  - exists false, (Pos.to_uint p). pose proof (DecimalPos.Unsigned.to_uint_nonnil p).
    repeat split; [assumption|]. unfold NilZero.string_of_uint.
    destruct (Pos.to_uint p); [contradiction | reflexivity ..].
  - exists true, (Pos.to_uint p). pose proof (DecimalPos.Unsigned.to_uint_nonnil p).
    repeat split; [assumption|]. unfold NilZero.string_of_uint.
    destruct (Pos.to_uint p); [contradiction | reflexivity ..].
Qed.

Lemma ofInt_dash_inj (z1 z2 : Z) (x1 x2 : string) :
  ofInt z1 ++ String "-" x1 = ofInt z2 ++ String "-" x2 ->
  z1 = z2 /\ x1 = x2.
Proof.
  destruct (ofInt_form z1) as (n1 & u1 & Hu1 & Hz1 & ->).
  destruct (ofInt_form z2) as (n2 & u2 & Hu2 & Hz2 & ->).
  intros H. destruct n1, n2; simpl in H.
  - injection H as H. destruct (digits_dash_inj _ _ _ _ H) as [-> ->].
    split; [|reflexivity]. apply DecimalZ.to_int_inj. congruence.
  - exfalso. destruct u2; try contradiction; discriminate H.
  - exfalso. destruct u1; try contradiction; discriminate H.
  - destruct (digits_dash_inj _ _ _ _ H) as [-> ->].
    split; [|reflexivity]. apply DecimalZ.to_int_inj. congruence.
Qed.

Lemma processPayment_accepted cartTotal paymentMethod s p s' :
  processPayment cartTotal paymentMethod s = (inl p, s') ->
  Payment.success p = true ->
  Payment.transactionId p = Some ("TXN-" ++ ofInt (instant s) ++ "-" ++ suffix s).
Proof.
  unfold processPayment, bind, random, now, toString36Of, throw, ret, instant, suffix.
  destruct (le cartTotal (literal 0)); [discriminate|].
  destruct (negb _); [discriminate|].
  cbv beta iota.
  match goal with |- context [if ?c then _ else _] => destruct c end.
  - intros [= <- _] _. reflexivity.
  - intros [= <- _]. discriminate.
Qed.

(** C8, as stated, fails: two payments accepted in the same millisecond
    with the same draw get the same transaction id. *)
Lemma transaction_ids_collide :
  let s := initialState frozenHost in
  let first := processPayment (ofZ 10) "credit" s in
  let second := processPayment (ofZ 10) "credit" (snd first) in
  fst first = inl (Payment.mk true (Some "TXN-1700000000000-i"))
  /\ fst second = inl (Payment.mk true (Some "TXN-1700000000000-i")).
Proof. vm_compute. split; reflexivity. Qed.

(** C8, amended. The id of an accepted payment is made of the clock
    reading and of nine base-36 digits of a second random draw, and of
    nothing else: two accepted payments have the same id exactly when both
    parts agree.  So the ids differ whenever the clock readings differ or
    the suffixes differ, and only then. *)
Theorem transaction_ids_differ_with_their_parts
  (total1 total2 : number) (method1 method2 : string)
  (s1 s1' s2 s2' : State) (p1 p2 : Payment.t) :
  processPayment total1 method1 s1 = (inl p1, s1') ->
  Payment.success p1 = true ->
  processPayment total2 method2 s2 = (inl p2, s2') ->
  Payment.success p2 = true ->
  (Payment.transactionId p1 = Payment.transactionId p2
   <-> instant s1 = instant s2 /\ suffix s1 = suffix s2)
  /\ (instant s1 <> instant s2 \/ suffix s1 <> suffix s2 ->
      Payment.transactionId p1 <> Payment.transactionId p2).
Proof.
  intros P1 A1 P2 A2.
  rewrite (processPayment_accepted _ _ _ _ _ P1 A1).
  rewrite (processPayment_accepted _ _ _ _ _ P2 A2).
  assert (E : Some ("TXN-" ++ ofInt (instant s1) ++ "-" ++ suffix s1)
              = Some ("TXN-" ++ ofInt (instant s2) ++ "-" ++ suffix s2)
              <-> instant s1 = instant s2 /\ suffix s1 = suffix s2).
  { split.
    - intros [= H]. now apply ofInt_dash_inj.
    - intros [-> ->]. reflexivity. }
  split; [exact E|]. intros H Heq. apply E in Heq. destruct Heq. destruct H; auto.
Qed.

Lemma transaction_ids_differ_with_their_parts_witness :
  let first := processPayment (ofZ 10) "credit" accepting in
  let second := processPayment (ofZ 10) "credit" (snd first) in
  fst first = inl (Payment.mk true (Some "TXN-1700000000000-i"))
  /\ fst second = inl (Payment.mk true (Some "TXN-1700000000001-i"))
  /\ Some "TXN-1700000000000-i" <> Some "TXN-1700000000001-i".
Proof.
  intros first second.
  assert (H1 : first
               = (inl (Payment.mk true (Some "TXN-1700000000000-i")), snd first))
    by (vm_compute; reflexivity).
  assert (H2 : second
               = (inl (Payment.mk true (Some "TXN-1700000000001-i")), snd second))
    by (vm_compute; reflexivity).
  split; [now rewrite H1|]. split; [now rewrite H2|].
  refine (proj2 (transaction_ids_differ_with_their_parts
                   (ofZ 10) (ofZ 10) "credit" "credit"
                   accepting (snd first) (snd first) (snd second)
                   _ _ H1 eq_refl H2 eq_refl) _).
  left. vm_compute. discriminate.
Defined.

(** ** Rounding to the nearest double *)

Section Rounding.

Local Open Scope Q_scope.

(** On the samples the arithmetic of [JsNumber] returns what the binary64
    operations of the Standard Library return. *)
Lemma arithmetic_agrees_with_SpecFloat : forallb agreesOn binary64Samples = true.
Proof. vm_compute. reflexivity. Qed.

Lemma pow2_pos e : 0 < pow2 e.
Proof. unfold pow2. apply Qpower_0_lt. reflexivity. Qed.











Ltac qcompare_props :=
  repeat match goal with
         | H : Qcompare _ _ = Eq |- _ => apply Qeq_alt in H
         | H : Qcompare _ _ = Lt |- _ => apply Qlt_alt in H
         | H : Qcompare _ _ = Gt |- _ => apply Qgt_alt in H
         end.

(** Rounding to the nearest integer. *)
Lemma round_half_even_bounds q :
  (Qfloor q <= round_half_even q <= Qfloor q + 1)%Z.
Proof.
  unfold round_half_even.
  destruct (Qcompare _ _); [destruct (Z.even _)| |]; lia.
Qed.

Lemma round_half_even_floor q :
  q - inject_Z (Qfloor q) < 1 # 2 -> round_half_even q = Qfloor q.
Proof.
  intros H. unfold round_half_even.
  destruct (Qcompare _ _) eqn:C; [apply Qeq_alt in C; lra | reflexivity
                                 | apply Qgt_alt in C; lra].
Qed.

Lemma round_half_even_Z n : round_half_even (inject_Z n) = n.
Proof.
  rewrite round_half_even_floor; rewrite Qfloor_Z; [reflexivity|].
  assert (E : inject_Z n - inject_Z n == 0) by ring. rewrite E. reflexivity.
Qed.

Lemma Qfloor_eq q1 q2 : q1 == q2 -> Qfloor q1 = Qfloor q2.
Proof.
  intros E. apply Z.le_antisymm; apply Qfloor_resp_le; rewrite E; apply Qle_refl.
Qed.

Lemma round_half_even_le q1 q2 :
  q1 <= q2 -> (round_half_even q1 <= round_half_even q2)%Z.
Proof.
  intros H. pose proof (Qfloor_resp_le _ _ H) as F.
  destruct (Z.eq_dec (Qfloor q1) (Qfloor q2)) as [E|N].
  - unfold round_half_even. rewrite E.
    destruct (Qcompare (q1 - inject_Z (Qfloor q2)) (1 # 2)) eqn:C1;
      destruct (Qcompare (q2 - inject_Z (Qfloor q2)) (1 # 2)) eqn:C2;
      qcompare_props; try (destruct (Z.even (Qfloor q2))); try lia; exfalso; lra.
  - pose proof (round_half_even_bounds q1). pose proof (round_half_even_bounds q2). lia.
Qed.

Lemma round_half_even_nonneg q : 0 <= q -> (0 <= round_half_even q)%Z.
Proof.
  intros H. change 0%Z with (round_half_even (inject_Z 0)) at 1.
  rewrite round_half_even_Z. pose proof (round_half_even_le 0 q H) as L.
  change 0 with (inject_Z 0) in L. now rewrite round_half_even_Z in L.
Qed.





Lemma round_magnitude_nonneg q : 0 < q -> 0 <= round_magnitude q.
Proof.
  intros H. unfold round_magnitude.
  apply Qmult_le_0_compat; [|apply Qlt_le_weak, pow2_pos].
  change 0 with (inject_Z 0). rewrite <- Zle_Qle.
  apply round_half_even_nonneg.
  apply Qle_shift_div_l; [apply pow2_pos|]. lra.
Qed.



(** ** [rne] on non-negative rationals *)

Lemma rne_zero q : q == 0 -> rne q = Finite 0.
Proof. intros H. unfold rne. apply Qeq_alt in H. now rewrite H. Qed.

Lemma rne_positive q :
  0 < q ->
  rne q = if Qle_bool (pow2 1024) (round_magnitude q)
          then Infinity false else Finite (Qred (round_magnitude q)).
Proof. intros H. unfold rne. apply Qgt_alt in H. now rewrite H. Qed.

Lemma rne_nonNegative q : 0 <= q -> nonNegative (rne q).
Proof.
  intros H. destruct (Qlt_le_dec 0 q) as [P|Z].
  - rewrite (rne_positive q P). destruct (Qle_bool _ _); cbn [nonNegative];
      [reflexivity|].
    rewrite Qred_correct. now apply round_magnitude_nonneg.
  - rewrite rne_zero by lra. cbn [nonNegative]. lra.
Qed.

Lemma rne_finite_bound q v : 0 <= q -> rne q = Finite v -> 0 <= v < pow2 1024.
Proof.
  intros H E. destruct (Qlt_le_dec 0 q) as [P|Z].
  - rewrite (rne_positive q P) in E.
    destruct (Qle_bool (pow2 1024) (round_magnitude q)) eqn:T; [discriminate|].
    assert (Ev : v = Qred (round_magnitude q)) by congruence.
    rewrite Ev. split.
    + rewrite Qred_correct. now apply round_magnitude_nonneg.
    + rewrite Qred_correct.
      apply Qnot_le_lt. intros C. apply Qle_bool_iff in C. congruence.
  - rewrite rne_zero in E by lra. injection E as <-. split; [lra | apply pow2_pos].
Qed.







(** ** Rounding to cents *)

Lemma cents_bounds q :
  inject_Z (cents q) <= q * inject_Z 100 + (1 # 2) < inject_Z (cents q) + 1.
Proof.
  unfold cents. split; [apply Qfloor_le|].
  pose proof (Qlt_floor (q * inject_Z 100 + (1 # 2))) as H.
  rewrite inject_Z_plus in H. exact H.
Qed.

Lemma cents_nonneg q : 0 <= q -> (0 <= cents q)%Z.
Proof.
  intros H. unfold cents. change 0%Z with (Qfloor 0).
  apply Qfloor_resp_le.
  assert (0 <= q * inject_Z 100) by (apply Qmult_le_0_compat; [lra | discriminate]).
  lra.
Qed.

(** [parseFloat(x.toFixed(2))] on a finite value that is not negative. *)
Lemma round2_nonneg_cases v :
  0 <= v ->
  (inject_Z (10 ^ 21) <= v /\ parseFloat (toFixed (Finite v) 2) = Finite v)
  \/ (v < inject_Z (10 ^ 21)
      /\ parseFloat (toFixed (Finite v) 2)
         = rne (inject_Z (cents v) / inject_Z 100)).
Proof.
  intros H. unfold toFixed.
  assert (A : Qabs v == v) by now apply Qabs_pos.
  destruct (Qle_bool (inject_Z (10 ^ 21)) (Qabs v)) eqn:T.
  - left. apply Qle_bool_iff in T. rewrite A in T. split; [exact T | reflexivity].
  - right. split.
    + apply Qnot_le_lt. intros C. rewrite <- A in C. apply Qle_bool_iff in C. congruence.
    + unfold parseFloat, is_negative.
      assert (N : Qle_bool 0 v = true) by now apply Qle_bool_iff.
      rewrite N. cbn [negb].
      assert (E : Qfloor (Qabs v * inject_Z (10 ^ Z.of_nat 2) + (1 # 2)) = cents v).
      { unfold cents. apply Qfloor_eq. rewrite A. reflexivity. }
      rewrite E. reflexivity.
Qed.



End Rounding.

(** ** Bounds on the breakdown *)

Section PricingBounds.

Local Open Scope Q_scope.

(** ** Numbers that are not negative *)

Lemma literal_zero : literal 0 = Finite 0.
Proof. reflexivity. Qed.

Lemma ge_zero_iff x : ge x (literal 0) = true <-> nonNegative x.
Proof.
  unfold ge, le. rewrite literal_zero.
  destruct x as [|s|v]; cbn [nonNegative].
  - split; [discriminate | contradiction].
  - destruct s; split; intros H; try reflexivity; discriminate.
  - apply Qle_bool_iff.
Qed.

Lemma round2_nonNegative x :
  nonNegative x -> nonNegative (parseFloat (toFixed x 2)).
Proof.
  destruct x as [|s|v]; cbn [nonNegative]; intros H.
  - contradiction.
  - subst s. reflexivity.
  - destruct (round2_nonneg_cases v H) as [[_ ->]|[_ ->]]; [exact H|].
    apply rne_nonNegative.
    apply Qle_shift_div_l; [reflexivity|]. rewrite Qmult_0_l.
    change 0 with (inject_Z 0). rewrite <- Zle_Qle. now apply cents_nonneg.
Qed.

Lemma is_negative_nonneg v : 0 <= v -> is_negative v = false.
Proof.
  intros H. unfold is_negative. apply Qle_bool_iff in H. now rewrite H.
Qed.

Lemma add_nonNegative x y : nonNegative x -> nonNegative y -> nonNegative (add x y).
Proof.
  destruct x as [|a|a], y as [|b|b]; cbn [nonNegative]; intros Hx Hy;
    try contradiction; unfold add.
  - subst. reflexivity.
  - exact Hx.
  - exact Hy.
  - apply rne_nonNegative. lra.
Qed.

Lemma mul_positive_nonNegative x c :
  nonNegative x -> 0 < c -> nonNegative (mul x (Finite c)).
Proof.
  destruct x as [|a|a]; cbn [nonNegative]; intros Hx Hc; try contradiction; unfold mul.
  - assert (Z : is_zero c = false).
    { unfold is_zero. destruct (Qeq_bool c 0) eqn:E; [|reflexivity].
      apply Qeq_bool_iff in E. lra. }
    rewrite Z, is_negative_nonneg by lra. subst a. reflexivity.
  - apply rne_nonNegative. apply Qmult_le_0_compat; lra.
Qed.

Lemma mul_summable x y : nonNegative x -> nonNegative y -> summable (mul x y).
Proof.
  destruct x as [|a|a], y as [|b|b]; cbn [nonNegative]; intros Hx Hy;
    try contradiction; unfold mul.
  - subst. reflexivity.
  - destruct (is_zero b); [exact I|]. rewrite is_negative_nonneg by exact Hy.
    subst a. reflexivity.
  - destruct (is_zero a); [exact I|]. rewrite is_negative_nonneg by exact Hx.
    subst b. reflexivity.
  - assert (H : 0 <= a * b) by (apply Qmult_le_0_compat; assumption).
    pose proof (rne_nonNegative _ H) as N.
    destruct (rne (a * b)) as [|s|v] eqn:E; cbn [summable nonNegative] in *;
      [exact I | exact N | exact (rne_finite_bound _ _ H E)].
Qed.

Lemma add_summable x y : summable x -> summable y -> summable (add x y).
Proof.
  destruct x as [|a|a], y as [|b|b]; cbn [summable]; intros Hx Hy; unfold add;
    try exact I.
  - subst. reflexivity.
  - exact Hx.
  - exact Hy.
  - assert (H : 0 <= a + b) by lra.
    pose proof (rne_nonNegative _ H) as N.
    destruct (rne (a + b)) as [|s|v] eqn:E; cbn [summable nonNegative] in *;
      [exact I | exact N | exact (rne_finite_bound _ _ H E)].
Qed.

Lemma sumLines_summable cart : Forall pricedLine cart -> summable (sumLines cart).
Proof.
  unfold sumLines. intros H.
  assert (G : summable (literal 0)).
  { rewrite literal_zero. cbn [summable]. split; [lra | apply pow2_pos]. }
  revert G. generalize (literal 0) as acc.
  induction H as [|line r [Hp Hq] Hr IH]; intros acc G; simpl; [exact G|].
  apply IH. destruct (CartItem.quantity (snd line) =? 0)%Z; [exact G|].
  apply add_summable; [exact G|].
  apply mul_summable.
  - now apply ge_zero_iff.
  - unfold ofZ. apply rne_nonNegative.
    change 0 with (inject_Z 0). now rewrite <- Zle_Qle.
Qed.

(** ** Table entries *)






Lemma tenth_positive : exists c, literal (1 # 10) = Finite c /\ 0 < c.
Proof. eexists. split; [vm_compute; reflexivity | reflexivity]. Qed.




(** C7, as stated, fails for [calculateTotal]: it rounds only at the end.
    On three copies of book 2 and two of book 4 it returns 75.84, where
    rounding subtotal and tax as they are computed gives 75.85. *)
Lemma calculateTotal_defers_rounding :
  fst ((addToCart 2 3 ;;; addToCart 4 2) accepting) = inl fiveBooks
  /\ sumLines fiveBooks = literal (6895 # 100)
  /\ calculateTotal (Some fiveBooks) = literal (7584 # 100)
  /\ calculateTotalRoundingEachStep fiveBooks = literal (7585 # 100)
  /\ calculateTotal (Some fiveBooks) <> calculateTotalRoundingEachStep fiveBooks.
Proof. vm_compute. repeat split; discriminate. Qed.

Lemma round2_half_up (v : Q) :
  Qabs v < inject_Z (10 ^ 21) ->
  exists n : Z,
    inject_Z n - (1 # 2) <= Qabs v * inject_Z 100
    /\ Qabs v * inject_Z 100 < inject_Z n + (1 # 2)
    /\ round2 (Finite v)
       = rne (if is_negative v
              then - (inject_Z n / inject_Z 100)
              else inject_Z n / inject_Z 100).
Proof.
  intros H. exists (cents (Qabs v)).
  destruct (cents_bounds (Qabs v)) as [B1 B2].
  split; [lra|]. split; [lra|].
  unfold round2, toFixed.
  destruct (Qle_bool (inject_Z (10 ^ 21)) (Qabs v)) eqn:T.
  - apply Qle_bool_iff in T. lra.
  - reflexivity.
Qed.

(** C7, amended. [calculateTotalWithExtras] rounds to cents where it
    computes: the subtotal, a percentage discount, the tax and the total
    are each [parseFloat(x.toFixed(2))] of the value just computed.
    [calculateTotal] rounds only the total it returns, from a subtotal and
    a tax that are not rounded.  The rounding takes the magnitude of the
    double to the nearest cent, a tie going up.  For books at 12.99 and
    14.99 [calculateTotal] returns 30.78, and 14.29 for the first alone. *)
Theorem rounding_points :
  (forall (cart : Cart) (couponCode : option string) (shippingMethod : string),
      let p := calculateTotalWithExtras (Some cart) couponCode shippingMethod in
      let afterDiscount := sub (Pricing.subtotal p) (Pricing.discount p) in
      Pricing.subtotal p = round2 (sumLines cart)
      /\ Pricing.tax p = round2 (mul afterDiscount (literal (1 # 10)))
      /\ Pricing.total p
         = round2 (add (add afterDiscount (Pricing.tax p)) (Pricing.shipping p)))
  /\ (forall (code : string) (subtotal : number) (coupon : Coupon.t),
      truthy code = true ->
      lookup couponDatabase (toUpperCase code) = Some coupon ->
      Coupon.type coupon = Coupon.percentage ->
      lt subtotal (ofZ (Coupon.minPurchase coupon)) = false ->
      CouponResult.discount (applyCoupon (Some code) subtotal)
      = round2 (mul subtotal (div (ofZ (Coupon.value coupon)) (ofZ 100))))
  /\ (forall cart : Cart,
      calculateTotal (Some cart)
      = round2 (add (sumLines cart) (mul (sumLines cart) (literal (1 # 10)))))
  /\ (forall v : Q,
      Qabs v < inject_Z (10 ^ 21) ->
      exists n : Z,
        inject_Z n - (1 # 2) <= Qabs v * inject_Z 100
        /\ Qabs v * inject_Z 100 < inject_Z n + (1 # 2)
        /\ round2 (Finite v)
           = rne (if is_negative v
                  then - (inject_Z n / inject_Z 100)
                  else inject_Z n / inject_Z 100))
  /\ calculateTotal (Some twoBooks) = literal (3078 # 100)
  /\ calculateTotal (Some (oneLine (1299 # 100) 1)) = literal (1429 # 100).
Proof.
  split; [|split; [|split; [|split; [|split]]]].
  - intros cart couponCode shippingMethod p afterDiscount.
    subst afterDiscount p. unfold calculateTotalWithExtras, round2.
    cbn [Pricing.subtotal Pricing.discount Pricing.tax Pricing.shipping
         Pricing.total].
    split; [reflexivity | split; reflexivity].
  - intros code subtotal coupon Ht Hl Hty Hmin. unfold applyCoupon, round2.
    rewrite Ht, Hl, Hmin, Hty. reflexivity.
  - intros cart. unfold calculateTotal, round2. reflexivity.
  - exact round2_half_up.
  - vm_compute. reflexivity.
  - vm_compute. reflexivity.
Qed.

Lemma rounding_points_witness :
  CouponResult.discount (applyCoupon (Some "save10") (literal (1299 # 100)))
  = literal (130 # 100)
  /\ round2 (Finite (1 # 8)) = literal (13 # 100)
  /\ round2 (literal (1005 # 1000)) = literal (100 # 100).
Proof.
  split; [|split].
  - rewrite (proj1 (proj2 rounding_points) "save10" (literal (1299 # 100))
               (Coupon.mk Coupon.percentage 10 0));
      vm_compute; reflexivity.
  - destruct (proj1 (proj2 (proj2 (proj2 rounding_points))) (1 # 8))
      as (n & B1 & B2 & ->); [vm_compute; reflexivity|].
    assert (E : Qabs (1 # 8) * inject_Z 100 == 25 # 2) by reflexivity.
    rewrite E in B1, B2.
    assert (L1 : inject_Z n <= inject_Z 13) by (change (inject_Z 13) with 13; lra).
    assert (L2 : inject_Z 12 < inject_Z n) by (change (inject_Z 12) with 12; lra).
    rewrite <- Zle_Qle in L1. rewrite <- Zlt_Qlt in L2.
    assert (n = 13%Z) by lia. subst n. vm_compute. reflexivity.
  - vm_compute. reflexivity.
Defined.

End PricingBounds.

(** ** The figures of the test suite *)

(** The totals, discounts and messages the repository's tests expect,
    replayed on the embedding from the module as loaded. *)
Lemma test_suite_figures :
  match fst ((addToCart 1 1 ;;; addToCart 4 2) accepting) with
  | inl cart => calculateTotal (Some cart) = literal (4067 # 100)
  | inr _ => False
  end
  /\ match fst ((addToCart 1 1 ;;; addToCart 2 1 ;;; addToCart 5 1) accepting) with
     | inl cart => calculateTotal (Some cart) = literal (4452 # 100)
     | inr _ => False
     end
  /\ match fst (addToCart 2 1 accepting) with
     | inl cart => calculateTotal (Some cart) = literal (1649 # 100)
     | inr _ => False
     end
  /\ match fst ((addToCart 1 2 ;;; addToCart 2 1) accepting) with
     | inl cart =>
         let p := calculateTotalWithExtras (Some cart) (Some "SAVE10") "express" in
         Pricing.discount p = literal (41 # 10)
         /\ Pricing.total p = literal (5355 # 100)
     | inr _ => False
     end
  /\ fst (addToCart 999 1 accepting) = inr "Book with ID 999 not found"
  /\ fst (addToCart 1 (-1) accepting) = inr "Quantity must be greater than 0"
  /\ fst (addToCart 6 5 accepting) = inr "Only 2 copies available"
  /\ fst (processPayment (ofZ 100) "bitcoin" accepting) = inr "Invalid payment method"
  /\ fst (completePurchase "NonexistentBook" 1 1 "credit" accepting)
     = inl (Purchase.Failed "No books found matching your search" "Purchase failed")
  /\ List.map Book.stock
       (bookDatabase (snd (completePurchase "Gatsby" 1 2 "credit" accepting)))
     = [3; 3; 0; 7; 4; 2].
Proof. vm_compute. repeat split; reflexivity. Qed.

(** * Further properties of the module *)

(** ** Search *)











(** ** Payment *)

Lemma processPayment_run cartTotal paymentMethod s :
  processPayment cartTotal paymentMethod s
  = if le cartTotal (literal 0) then (inr "Invalid cart total", s)
    else if negb (supported paymentMethod)
    then (inr "Invalid payment method", s)
    else if gt (draw s) (literal (2 # 10))
    then (inl (Payment.mk true (Some (transactionIdFrom s))), later s 2 1)
    else (inl (Payment.mk false None), later s 1 0).
Proof.
  unfold processPayment, supported, bind, random, now, toString36Of, throw, ret,
    transactionIdFrom, instant, suffix, draw, later.
  destruct (le cartTotal (literal 0)); [reflexivity|].
  destruct (negb _); [reflexivity|].
  cbv beta iota. cbn [host randomCalls clockCalls bookDatabase shoppingCart emailLog].
  match goal with |- context [if ?c then _ else _] => destruct c end; reflexivity.
Qed.

Lemma supported_In paymentMethod :
  supported paymentMethod = true <-> In paymentMethod validMethods.
Proof.
  unfold supported. rewrite existsb_exists. split.
  - intros (x & Hin & E). apply String.eqb_eq in E. now subst.
  - intros H. exists paymentMethod. split; [exact H | apply String.eqb_refl].
Qed.

(** X3. [processPayment] checks before it draws.  A call that throws has
    checked the total first and the method second, and leaves the state,
    the tape of random numbers included, as it was.  A call that returns
    had a total that is not at most zero and a supported method; it is
    accepted exactly when the first draw is above 0.2; an accepted payment
    carries the transaction id and has consumed two draws and one reading
    of the clock, a rejected one carries no id and has consumed one
    draw. *)
Theorem processPayment_draws_only_after_its_checks
  (cartTotal : number) (paymentMethod : string) (s : State)
  (r : Payment.t + string) (s' : State) :
  processPayment cartTotal paymentMethod s = (r, s') ->
  match r with
  | inr e =>
      s' = s
      /\ ((le cartTotal (literal 0) = true /\ e = "Invalid cart total")
          \/ (le cartTotal (literal 0) = false
              /\ ~ In paymentMethod validMethods
              /\ e = "Invalid payment method"))
  | inl p =>
      le cartTotal (literal 0) = false
      /\ In paymentMethod validMethods
      /\ Payment.success p = gt (draw s) (literal (2 # 10))
      /\ Payment.transactionId p
         = (if Payment.success p then Some (transactionIdFrom s) else None)
      /\ s' = (if Payment.success p then later s 2 1 else later s 1 0)
  end.
Proof.
  rewrite processPayment_run.
  destruct (le cartTotal (literal 0)) eqn:T.
  { intros [= <- <-]. split; [reflexivity|]. left. split; reflexivity. }
  destruct (supported paymentMethod) eqn:Hm; cbn [negb].
  2:{ intros [= <- <-]. split; [reflexivity|]. right.
      split; [reflexivity|]. split; [|reflexivity].
      intros H. apply supported_In in H. congruence. }
  apply supported_In in Hm.
  destruct (gt (draw s) (literal (2 # 10))); intros [= <- <-];
    repeat split; assumption.
Qed.

Lemma processPayment_draws_only_after_its_checks_witness :
  processPayment (ofZ 10) "cash" accepting
  = (inr "Invalid payment method", accepting)
  /\ randomCalls (snd (processPayment (ofZ 10) "credit" accepting)) = 2%nat
  /\ randomCalls (snd (processPayment (ofZ 10) "credit" rejecting)) = 1%nat.
Proof.
  split; [|split].
  - pose proof (processPayment_draws_only_after_its_checks
                  (ofZ 10) "cash" accepting (inr "Invalid payment method")
                  (snd (processPayment (ofZ 10) "cash" accepting))) as H.
    cbv beta iota in H. destruct H as [H _]; [vm_compute; reflexivity|].
    rewrite <- H at 2. vm_compute. reflexivity.
  - pose proof (processPayment_draws_only_after_its_checks
                  (ofZ 10) "credit" accepting
                  (inl (Payment.mk true (Some "TXN-1700000000000-i")))
                  (snd (processPayment (ofZ 10) "credit" accepting))) as H.
    cbv beta iota in H. destruct H as (_ & _ & _ & _ & ->);
      [vm_compute; reflexivity|].
    reflexivity.
  - pose proof (processPayment_draws_only_after_its_checks
                  (ofZ 10) "credit" rejecting
                  (inl (Payment.mk false None))
                  (snd (processPayment (ofZ 10) "credit" rejecting))) as H.
    cbv beta iota in H. destruct H as (_ & _ & _ & _ & ->);
      [vm_compute; reflexivity|].
    reflexivity.
Defined.

(** ** Sending an e-mail *)

Lemma includes_truthy a : includes a "@" = true -> truthy a = true.
Proof. destruct a; [discriminate | reflexivity]. Qed.

(** X4. [sendEmailNotification] never throws and touches neither catalog
    nor cart.  When it answers that the message was sent, the recipient
    contains an at sign and [getEmailLog] afterwards returns the log of
    before followed by one message, which carries the id returned, the
    recipient, the subject and the order details given.  When it answers
    that it was not, the error is the invalid-address one, the recipient
    was missing or had no at sign, and the state is as it was. *)
Theorem sent_message_is_the_last_of_the_log
  (recipient : option string) (subject : string) (orderDetails : OrderDetails)
  (s : State) :
  exists result s',
    sendEmailNotification recipient subject orderDetails s = (inl result, s')
    /\ bookDatabase s' = bookDatabase s
    /\ shoppingCart s' = shoppingCart s
    /\ match result with
       | EmailResult.Sent emailId message =>
           exists address email,
             recipient = Some address
             /\ includes address "@" = true
             /\ message = "Email sent to " ++ address
             /\ fst (getEmailLog s') = inl (emailLog s ++ [email])%list
             /\ Email.id email = emailId
             /\ Email.to email = address
             /\ Email.subject email = subject
             /\ Email.orderDetails email = orderDetails
             /\ Email.status email = "sent"
       | EmailResult.NotSent error =>
           error = "Invalid email address"
           /\ s' = s
           /\ match recipient with
              | Some address => includes address "@" = false
              | None => True
              end
       end.
Proof.
  unfold sendEmailNotification. destruct recipient as [a|].
  2:{ do 2 eexists. split; [reflexivity|]. repeat split. }
  destruct (includes a "@") eqn:At.
  - rewrite (includes_truthy _ At). cbn [negb orb].
    do 2 eexists. split; [reflexivity|]. split; [reflexivity|].
    split; [reflexivity|].
    exists a. eexists. repeat split. exact At.
  - rewrite orb_true_r.
    do 2 eexists. split; [reflexivity|]. repeat split.
Qed.

(** ** One run of a purchase *)

Lemma updateInventory_single bookId b quantity s :
  findBook (bookDatabase s) bookId = Some b ->
  quantity <= Book.stock b ->
  updateInventory (Some [(bookId, CartItem.mk b quantity)]) s
  = (inl [(bookId, Book.stock b - quantity)],
     withDatabase s (setStock (bookDatabase s) bookId (Book.stock b - quantity))).
Proof.
  intros F Hq. unfold updateInventory, validateLines, applyLines, bind,
    get_bookDatabase, set_bookDatabase, ret, throw, withDatabase.
  rewrite F. cbn [CartItem.quantity bookDatabase].
  destruct (Book.stock b <? quantity) eqn:E; [apply Z.ltb_lt in E; lia|].
  rewrite F. reflexivity.
Qed.

Lemma addToCart_fresh bookId quantity s :
  addToCart bookId quantity (withCart s [])
  = match findBook (bookDatabase s) bookId with
    | None => (inr ("Book with ID " ++ ofInt bookId ++ " not found"), withCart s [])
    | Some b =>
        if quantity <=? 0
        then (inr "Quantity must be greater than 0", withCart s [])
        else if quantity >? Book.stock b
        then (inr ("Only " ++ ofInt (Book.stock b) ++ " copies available"),
              withCart s [])
        else (inl [(bookId, CartItem.mk b quantity)],
              withCart s [(bookId, CartItem.mk b quantity)])
    end.
Proof.
  unfold addToCart, bind, get_bookDatabase, get_shoppingCart, throw, ret,
    set_shoppingCart, deepCopy, withCart; cbn -[findBook].
  destruct (findBook (bookDatabase s) bookId) as [b|]; [|reflexivity].
  destruct (quantity <=? 0); [reflexivity|]. cbn.
  destruct (quantity >? Book.stock b); reflexivity.
Qed.

Ltac by_the_checks :=
  unfold refusal, hasResults, totalWithExtras; cbv beta;
  repeat first
    [ match goal with
      | H : searchBooks _ _ = _ |- _ => rewrite H
      | H : findBook _ _ = _ |- _ => rewrite H
      | H : (_ <=? _) = _ |- _ => rewrite H
      | H : (_ >? _) = _ |- _ => rewrite H
      | H : le _ _ = _ |- _ => rewrite H
      | H : supported _ = _ |- _ => rewrite H
      | H : gt _ _ = _ |- _ => rewrite H
      end
    | progress cbn [fst negb] ];
  reflexivity.

Ltac failed_with side :=
  intros [= <- <-]; left; eexists;
  split; [by_the_checks|]; split; [reflexivity|]; side; reflexivity.
Ltac failed_early := failed_with ltac:(left).
Ltac failed_after_draw := failed_with ltac:(right).

Ltac test_total T :=
  match goal with
  | |- context [if ?c then throw "Invalid cart total" else _] => destruct c eqn:T
  end.

Ltac commit_single_line s bookId b quantity F Q :=
  match goal with
  | |- context [updateInventory ?c ?st] =>
      replace (updateInventory c st)
        with (inl (B := string) [(bookId, Book.stock b - quantity)],
              withDatabase st (setStock (bookDatabase s) bookId
                                        (Book.stock b - quantity)))
        by (symmetry; exact (updateInventory_single bookId b quantity st F Q))
  end.

Ltac paid b :=
  intros [= <- <-]; right; exists b;
  split; [by_the_checks|];
  repeat (split; [first [reflexivity | assumption | lia]|]).

(** One run of [completePurchase]: either a check refuses, or the order
    goes through. *)
Lemma completePurchase_run searchQuery bookId quantity paymentMethod s r s' :
  completePurchase searchQuery bookId quantity paymentMethod s = (r, s') ->
  (exists e,
      refusal (fun cart => calculateTotal (Some cart))
              searchQuery bookId quantity paymentMethod s = Some e
      /\ r = inl (Purchase.Failed e "Purchase failed")
      /\ afterFailure s s')
  \/ (exists b,
         refusal (fun cart => calculateTotal (Some cart))
                 searchQuery bookId quantity paymentMethod s = None
         /\ findBook (bookDatabase s) bookId = Some b
         /\ 0 < quantity <= Book.stock b
         /\ r = inl (Purchase.Order
                       ("ORD-" ++ ofInt (Date_now (host s) (1 + clockCalls s)))
                       (Some (transactionIdFrom s))
                       [(bookId, CartItem.mk b quantity)]
                       (calculateTotal (Some [(bookId, CartItem.mk b quantity)]))
                       [(bookId, Book.stock b - quantity)]
                       "Purchase completed successfully!")
         /\ s' = mkState (setStock (bookDatabase s) bookId (Book.stock b - quantity))
                         [] (emailLog s) (host s)
                         (2 + randomCalls s) (2 + clockCalls s)).
Proof.
  unfold completePurchase, try_catch, bind, get_shoppingCart, deepCopy.
  destruct (searchBooks_run searchQuery s) as [l Hl]. rewrite Hl.
  destruct l as [|b0 l]; cbn [List.length Nat.eqb fst].
  { failed_early. }
  unfold set_shoppingCart at 1.
  change (mkState (bookDatabase s) [] (emailLog s) (host s) (randomCalls s)
                  (clockCalls s)) with (withCart s []).
  rewrite addToCart_fresh.
  destruct (findBook (bookDatabase s) bookId) as [b|] eqn:F; [|failed_early].
  destruct (quantity <=? 0) eqn:Q0; [failed_early|].
  destruct (quantity >? Book.stock b) eqn:Q1; [failed_early|].
  cbv beta iota zeta.
  test_total T; [failed_early|].
  rewrite processPayment_run, T.
  destruct (supported paymentMethod) eqn:Hm; cbn [negb]; [|failed_early].
  match goal with
  | |- context [gt (draw ?st) ?x] => change (draw st) with (draw s)
  end.
  destruct (gt (draw s) (literal (2 # 10))) eqn:D; cbn [Payment.success negb];
    [|failed_after_draw].
  assert (Q0' := Q0). assert (Q1' := Q1).
  apply Z.leb_gt in Q0'. rewrite Z.gtb_ltb in Q1'. apply Z.ltb_ge in Q1'.
  commit_single_line s bookId b quantity F Q1'.
  paid b. reflexivity.
Qed.

(** One run of [completePurchaseWithExtras]. *)
Lemma completePurchaseWithExtras_run
  searchQuery bookId quantity paymentMethod options s r s' :
  completePurchaseWithExtras searchQuery bookId quantity paymentMethod options s
  = (r, s') ->
  (exists e,
      refusal (totalWithExtras options)
              searchQuery bookId quantity paymentMethod s = Some e
      /\ r = inl (Purchase.Failed e "Purchase failed")
      /\ afterFailure s s')
  \/ (exists b,
         refusal (totalWithExtras options)
                 searchQuery bookId quantity paymentMethod s = None
         /\ findBook (bookDatabase s) bookId = Some b
         /\ 0 < quantity <= Book.stock b
         /\ let cart := [(bookId, CartItem.mk b quantity)] in
            let pricing :=
              calculateTotalWithExtras (Some cart) (couponCode options)
                match shippingMethod options with
                | Some m => m
                | None => "standard"
                end in
            let address := customerEmail options in
            let sent := confirmation s address cart pricing in
            r = inl (Purchase.OrderWithExtras
                       ("ORD-" ++ ofInt (Date_now (host s)
                                           (1 + emailReadings address + clockCalls s)))
                       (Some (transactionIdFrom s))
                       cart pricing
                       [(bookId, Book.stock b - quantity)]
                       match sent with Some _ => true | None => false end
                       (option_map Email.id sent)
                       "Purchase completed successfully!")
            /\ s' = mkState (setStock (bookDatabase s) bookId (Book.stock b - quantity))
                            []
                            match sent with
                            | Some email => (emailLog s ++ [email])%list
                            | None => emailLog s
                            end
                            (host s)
                            (2 + randomCalls s)
                            (2 + emailReadings address + clockCalls s)).
Proof.
  unfold completePurchaseWithExtras, try_catch, bind, get_shoppingCart, deepCopy.
  destruct (searchBooks_run searchQuery s) as [l Hl]. rewrite Hl.
  destruct l as [|b0 l]; cbn [List.length Nat.eqb fst].
  { failed_early. }
  unfold set_shoppingCart at 1.
  change (mkState (bookDatabase s) [] (emailLog s) (host s) (randomCalls s)
                  (clockCalls s)) with (withCart s []).
  rewrite addToCart_fresh.
  destruct (findBook (bookDatabase s) bookId) as [b|] eqn:F; [|failed_early].
  destruct (quantity <=? 0) eqn:Q0; [failed_early|].
  destruct (quantity >? Book.stock b) eqn:Q1; [failed_early|].
  cbv beta iota zeta.
  test_total T; [failed_early|].
  rewrite processPayment_run, T.
  destruct (supported paymentMethod) eqn:Hm; cbn [negb]; [|failed_early].
  match goal with
  | |- context [gt (draw ?st) ?x] => change (draw st) with (draw s)
  end.
  destruct (gt (draw s) (literal (2 # 10))) eqn:D; cbn [Payment.success negb];
    [|failed_after_draw].
  assert (Q0' := Q0). assert (Q1' := Q1).
  apply Z.leb_gt in Q0'. rewrite Z.gtb_ltb in Q1'. apply Z.ltb_ge in Q1'.
  commit_single_line s bookId b quantity F Q1'.
  unfold confirmation, emailReadings, sendEmailNotification, bind.
  destruct (customerEmail options) as [a|]; [|paid b; split; reflexivity].
  destruct (includes a "@") eqn:At.
  - rewrite (includes_truthy _ At). cbn [negb orb].
    paid b. split; reflexivity.
  - destruct (truthy a); cbn [negb orb]; paid b; split; reflexivity.
Qed.

Lemma afterFailure_store s s' :
  afterFailure s s' ->
  sameStore s s'
  /\ clockCalls s' = clockCalls s
  /\ (randomCalls s' = randomCalls s \/ randomCalls s' = S (randomCalls s)).
Proof. intros [-> | ->]; repeat split; auto. Qed.

(** X5. Both purchase functions return the outcome of a fixed list of
    checks, taken in order: the search has a result, the book is in the
    catalog, the quantity is positive, the stock holds the quantity, the
    total is above zero, the payment method is supported, the payment draw
    is above 0.2.  The error of the result is the message of the first
    check that fails, and the purchase succeeds exactly when none fails:
    once the payment is accepted the inventory step cannot fail. *)
Theorem purchase_result_is_the_first_failed_check
  (searchQuery : string) (bookId quantity : Z) (paymentMethod : string)
  (options : Options) (s : State) :
  (exists r s',
      completePurchase searchQuery bookId quantity paymentMethod s = (inl r, s')
      /\ Purchase.error r
         = refusal (fun cart => calculateTotal (Some cart))
                   searchQuery bookId quantity paymentMethod s
      /\ (Purchase.success r = true <-> Purchase.error r = None))
  /\ (exists r s',
      completePurchaseWithExtras searchQuery bookId quantity paymentMethod
        options s = (inl r, s')
      /\ Purchase.error r
         = refusal (totalWithExtras options)
                   searchQuery bookId quantity paymentMethod s
      /\ (Purchase.success r = true <-> Purchase.error r = None)).
Proof.
  split.
  - destruct (completePurchase searchQuery bookId quantity paymentMethod s)
      as [r s'] eqn:R.
    destruct (completePurchase_run _ _ _ _ _ _ _ R)
      as [(e & C & -> & _) | (b & C & _ & _ & -> & _)];
      do 2 eexists; (split; [reflexivity|]); rewrite C; simpl;
      (split; [reflexivity|]); split; congruence.
  - destruct (completePurchaseWithExtras searchQuery bookId quantity
                paymentMethod options s) as [r s'] eqn:R.
    destruct (completePurchaseWithExtras_run _ _ _ _ _ _ _ _ R)
      as [(e & C & -> & _) | (b & C & _ & _ & -> & _)];
      do 2 eexists; (split; [reflexivity|]); rewrite C; simpl;
      (split; [reflexivity|]); split; congruence.
Qed.

(** X6. A purchase that fails, for whatever reason, leaves catalog,
    session cart and e-mail log as they were; it has not read the clock, so
    it has made neither a transaction id nor an order id, and it has drawn
    at most one random number. *)
Theorem failed_purchase_changes_nothing
  (searchQuery : string) (bookId quantity : Z) (paymentMethod : string)
  (options : Options) (s : State) (r : Purchase.t) (s' : State) :
  completePurchase searchQuery bookId quantity paymentMethod s = (inl r, s')
  \/ completePurchaseWithExtras searchQuery bookId quantity paymentMethod
       options s = (inl r, s') ->
  Purchase.success r = false ->
  bookDatabase s' = bookDatabase s
  /\ shoppingCart s' = shoppingCart s
  /\ emailLog s' = emailLog s
  /\ clockCalls s' = clockCalls s
  /\ (randomCalls s' = randomCalls s \/ randomCalls s' = S (randomCalls s)).
Proof.
  intros [R | R] Hf.
  - destruct (completePurchase_run _ _ _ _ _ _ _ R)
      as [(e & _ & _ & A) | (b & _ & _ & _ & E & _)].
    + destruct (afterFailure_store _ _ A) as ((? & ? & ? & _) & ? & ?). auto.
    + injection E as ->. discriminate Hf.
  - destruct (completePurchaseWithExtras_run _ _ _ _ _ _ _ _ R)
      as [(e & _ & _ & A) | (b & _ & _ & _ & E & _)].
    + destruct (afterFailure_store _ _ A) as ((? & ? & ? & _) & ? & ?). auto.
    + injection E as ->. discriminate Hf.
Qed.

Lemma failed_purchase_changes_nothing_witness :
  let s := snd (addToCart 2 1 rejecting) in
  let s' := snd (completePurchaseWithExtras "Gatsby" 1 1 "credit"
                   (mkOptions (Some "SAVE10") None (Some "buyer@example.com")) s) in
  bookDatabase s' = bookDatabase s
  /\ shoppingCart s' = shoppingCart s
  /\ emailLog s' = emailLog s
  /\ clockCalls s' = clockCalls s
  /\ (randomCalls s' = randomCalls s \/ randomCalls s' = S (randomCalls s)).
Proof.
  intros s s'.
  apply (failed_purchase_changes_nothing
           "Gatsby" 1 1 "credit"
           (mkOptions (Some "SAVE10") None (Some "buyer@example.com")) s
           (Purchase.Failed "Payment processing failed. Please try again."
                            "Purchase failed") s').
  - right. vm_compute. reflexivity.
  - reflexivity.
Defined.

Lemma setStock_length db k v : List.length (setStock db k v) = List.length db.
Proof.
  induction db as [|b r IH]; simpl; [reflexivity|].
  destruct (Book.id b =? k); simpl; congruence.
Qed.

(** X7. A purchase that succeeds bought a book of the catalog in a
    positive quantity its stock could serve.  Afterwards that book's stock
    is lower by the quantity and nothing else of it has changed, every
    other book is as before, and the session cart is empty, whatever it
    held before the call.  The confirmation lists the one line bought, the
    new stock of the book and the transaction id of the payment. *)
Theorem completed_purchase_takes_the_copies_from_stock
  (searchQuery : string) (bookId quantity : Z) (paymentMethod : string)
  (options : Options) (s : State) (r : Purchase.t) (s' : State) :
  completePurchase searchQuery bookId quantity paymentMethod s = (inl r, s')
  \/ completePurchaseWithExtras searchQuery bookId quantity paymentMethod
       options s = (inl r, s') ->
  Purchase.success r = true ->
  exists b,
    findBook (bookDatabase s) bookId = Some b
    /\ 0 < quantity <= Book.stock b
    /\ findBook (bookDatabase s') bookId
       = Some (withStock b (Book.stock b - quantity))
    /\ (forall k, k <> bookId ->
          findBook (bookDatabase s') k = findBook (bookDatabase s) k)
    /\ List.length (bookDatabase s') = List.length (bookDatabase s)
    /\ shoppingCart s' = []
    /\ itemsOf r = Some [(bookId, CartItem.mk b quantity)]
    /\ inventoryUpdatedOf r = Some [(bookId, Book.stock b - quantity)]
    /\ transactionIdOf r = Some (transactionIdFrom s)
    /\ randomCalls s' = (2 + randomCalls s)%nat.
Proof.
  intros [R | R] Hs.
  - destruct (completePurchase_run _ _ _ _ _ _ _ R)
      as [(e & _ & E & _) | (b & _ & F & Q & E & ->)].
    { injection E as ->. discriminate Hs. }
    exists b. injection E as ->.
    cbn [bookDatabase shoppingCart randomCalls].
    split; [exact F|]. split; [exact Q|].
    split; [now apply findBook_setStock_same|].
    split; [intros k Hk; now apply findBook_setStock_other|].
    split; [apply setStock_length|].
    repeat split.
  - destruct (completePurchaseWithExtras_run _ _ _ _ _ _ _ _ R)
      as [(e & _ & E & _) | (b & _ & F & Q & E & ->)].
    { injection E as ->. discriminate Hs. }
    exists b. injection E as ->.
    cbn [bookDatabase shoppingCart randomCalls].
    split; [exact F|]. split; [exact Q|].
    split; [now apply findBook_setStock_same|].
    split; [intros k Hk; now apply findBook_setStock_other|].
    split; [apply setStock_length|].
    repeat split.
Qed.

Lemma completed_purchase_takes_the_copies_from_stock_witness :
  let s := snd (addToCart 2 1 accepting) in
  let s' := snd (completePurchase "Brave" 6 2 "credit" s) in
  shoppingCart s <> []
  /\ shoppingCart s' = []
  /\ findBook (bookDatabase s') 6
     = Some (Book.mk 6 "Brave New World" "Aldous Huxley" (literal (1349 # 100)) 0).
Proof.
  intros s s'. split; [discriminate|].
  destruct (completed_purchase_takes_the_copies_from_stock
              "Brave" 6 2 "credit" noOptions s
              (Purchase.Order "ORD-1700000000001" (Some "TXN-1700000000000-i")
                 [(6, CartItem.mk (Book.mk 6 "Brave New World" "Aldous Huxley"
                                           (literal (1349 # 100)) 2) 2)]
                 (literal (2968 # 100)) [(6, 0)]
                 "Purchase completed successfully!") s')
    as (b & F & _ & F' & _ & _ & C & _).
  - left. vm_compute. reflexivity.
  - reflexivity.
  - split; [exact C|]. rewrite F'.
    assert (E : Some b = Some (Book.mk 6 "Brave New World" "Aldous Huxley"
                                       (literal (1349 # 100)) 2))
      by (rewrite <- F; vm_compute; reflexivity).
    injection E as ->. reflexivity.
Defined.

Lemma ofInt_inj z1 z2 : ofInt z1 = ofInt z2 -> z1 = z2.
Proof.
  intros H. apply (ofInt_dash_inj z1 z2 EmptyString EmptyString). now rewrite H.
Qed.

(** X8. In a successful [completePurchaseWithExtras] the confirmation
    e-mail is logged exactly when the customer address contains an at
    sign: then the log grows by one message to that address, carrying the
    items, the pricing and the transaction id of the confirmation, and the
    confirmation reports it sent, with its id.  With any other address, or
    none, the purchase succeeds all the same, the log is untouched and the
    confirmation reports no e-mail. *)
Theorem confirmation_goes_to_addresses_with_an_at_sign
  (searchQuery : string) (bookId quantity : Z) (paymentMethod : string)
  (options : Options) (s : State) (r : Purchase.t) (s' : State) :
  completePurchaseWithExtras searchQuery bookId quantity paymentMethod options s
  = (inl r, s') ->
  Purchase.success r = true ->
  match customerEmail options with
  | Some address =>
      if includes address "@"
      then exists email,
          emailLog s' = (emailLog s ++ [email])%list
          /\ Email.to email = address
          /\ Email.subject email = "Order Confirmation"
          /\ Email.status email = "sent"
          /\ Some (details_items (Email.orderDetails email)) = itemsOf r
          /\ Some (details_pricing (Email.orderDetails email)) = pricingOf r
          /\ details_transactionId (Email.orderDetails email) = transactionIdOf r
          /\ emailSentOf r = true
          /\ emailIdOf r = Some (Email.id email)
      else emailLog s' = emailLog s
           /\ emailSentOf r = false /\ emailIdOf r = None
  | None => emailLog s' = emailLog s
            /\ emailSentOf r = false /\ emailIdOf r = None
  end.
Proof.
  intros R Hs.
  destruct (completePurchaseWithExtras_run _ _ _ _ _ _ _ _ R)
    as [(e & _ & E & _) | (b & _ & F & Q & E & ->)].
  { injection E as ->. discriminate Hs. }
  injection E as ->. unfold confirmation.
  destruct (customerEmail options) as [a|]; [|repeat split].
  destruct (includes a "@"); [|repeat split].
  eexists. repeat split.
Qed.

Lemma confirmation_goes_to_addresses_with_an_at_sign_witness :
  let sent := completePurchaseWithExtras "Gatsby" 1 1 "credit"
                (mkOptions None None (Some "buyer@example.com")) accepting in
  let unsent := completePurchaseWithExtras "Gatsby" 1 1 "credit"
                  (mkOptions None None (Some "buyer.example.com")) accepting in
  (exists email, emailLog (snd sent) = [email]
                 /\ Email.to email = "buyer@example.com")
  /\ emailLog (snd unsent) = [].
Proof.
  intros sent unsent. split.
  - pose proof (confirmation_goes_to_addresses_with_an_at_sign
                  "Gatsby" 1 1 "credit"
                  (mkOptions None None (Some "buyer@example.com")) accepting
                  (Purchase.OrderWithExtras
                     "ORD-1700000000004" (Some "TXN-1700000000000-i")
                     (oneLine (1299 # 100) 1)
                     (calculateTotalWithExtras (Some (oneLine (1299 # 100) 1))
                        None "standard")
                     [(1, 4)] true (Some "EMAIL-1700000000002")
                     "Purchase completed successfully!")
                  (snd sent)) as H.
    cbv beta iota zeta in H. cbn [customerEmail] in H.
    change (includes "buyer@example.com" "@") with true in H. cbv iota in H.
    destruct H as (email & L & T & _).
    + vm_compute. reflexivity.
    + reflexivity.
    + exists email. split; [exact L | exact T].
  - pose proof (confirmation_goes_to_addresses_with_an_at_sign
                  "Gatsby" 1 1 "credit"
                  (mkOptions None None (Some "buyer.example.com")) accepting
                  (Purchase.OrderWithExtras
                     "ORD-1700000000002" (Some "TXN-1700000000000-i")
                     (oneLine (1299 # 100) 1)
                     (calculateTotalWithExtras (Some (oneLine (1299 # 100) 1))
                        None "standard")
                     [(1, 4)] false None
                     "Purchase completed successfully!")
                  (snd unsent)) as H.
    cbn [customerEmail] in H.
    change (includes "buyer.example.com" "@") with false in H. cbv iota in H.
    destruct H as (L & _).
    + vm_compute. reflexivity.
    + reflexivity.
    + exact L.
Defined.

(** X9. The order id written in the confirmation e-mail and the order id
    returned to the caller are made from two readings of the clock, three
    readings apart: they are the same text exactly when the clock gave the
    same instant at both. *)
Theorem emailed_order_id_comes_from_an_earlier_reading
  (searchQuery : string) (bookId quantity : Z) (paymentMethod : string)
  (options : Options) (address : string) (s : State) (r : Purchase.t)
  (s' : State) :
  completePurchaseWithExtras searchQuery bookId quantity paymentMethod options s
  = (inl r, s') ->
  Purchase.success r = true ->
  customerEmail options = Some address ->
  includes address "@" = true ->
  exists email,
    emailLog s' = (emailLog s ++ [email])%list
    /\ details_orderId (Email.orderDetails email)
       = "ORD-" ++ ofInt (Date_now (host s) (1 + clockCalls s))
    /\ orderIdOf r = Some ("ORD-" ++ ofInt (Date_now (host s) (4 + clockCalls s)))
    /\ (Some (details_orderId (Email.orderDetails email)) = orderIdOf r
        <-> Date_now (host s) (1 + clockCalls s)
            = Date_now (host s) (4 + clockCalls s)).
Proof.
  intros R Hs Ha At.
  destruct (completePurchaseWithExtras_run _ _ _ _ _ _ _ _ R)
    as [(e & _ & E & _) | (b & _ & F & Q & E & ->)].
  { injection E as ->. discriminate Hs. }
  injection E as ->. unfold confirmation, emailReadings.
  rewrite Ha, At. eexists. split; [reflexivity|].
  cbn [Email.orderDetails details_orderId orderIdOf].
  split; [reflexivity|]. split; [reflexivity|].
  split.
  - intros [= H]. now apply ofInt_inj.
  - intros ->. reflexivity.
Qed.

Lemma emailed_order_id_comes_from_an_earlier_reading_witness :
  let run := completePurchaseWithExtras "Gatsby" 1 1 "credit"
               (mkOptions None None (Some "buyer@example.com")) accepting in
  exists email,
    emailLog (snd run) = [email]
    /\ details_orderId (Email.orderDetails email) = "ORD-1700000000001"
    /\ fst run
       = inl (Purchase.OrderWithExtras
                "ORD-1700000000004" (Some "TXN-1700000000000-i")
                (oneLine (1299 # 100) 1)
                (calculateTotalWithExtras (Some (oneLine (1299 # 100) 1))
                   None "standard")
                [(1, 4)] true (Some "EMAIL-1700000000002")
                "Purchase completed successfully!").
Proof.
  intros run.
  assert (R : run
              = (inl (Purchase.OrderWithExtras
                        "ORD-1700000000004" (Some "TXN-1700000000000-i")
                        (oneLine (1299 # 100) 1)
                        (calculateTotalWithExtras (Some (oneLine (1299 # 100) 1))
                           None "standard")
                        [(1, 4)] true (Some "EMAIL-1700000000002")
                        "Purchase completed successfully!"), snd run))
    by (vm_compute; reflexivity).
  destruct (emailed_order_id_comes_from_an_earlier_reading
              "Gatsby" 1 1 "credit"
              (mkOptions None None (Some "buyer@example.com"))
              "buyer@example.com" accepting _ _ R)
    as (email & L & D & _); try reflexivity.
  exists email. split; [exact L|]. split; [exact D|]. now rewrite R.
Defined.

(** X10. After a successful purchase a new [addToCart] for the same book
    is checked against what is left: a positive quantity is accepted up to
    the old stock less the quantity bought, and the line then carries the
    book with its new stock; a larger one is refused with the message that
    quotes what is left. *)
Theorem after_a_purchase_the_cart_sees_what_is_left
  (searchQuery : string) (bookId quantity : Z) (paymentMethod : string)
  (options : Options) (s : State) (r : Purchase.t) (s' : State) (again : Z) :
  completePurchase searchQuery bookId quantity paymentMethod s = (inl r, s')
  \/ completePurchaseWithExtras searchQuery bookId quantity paymentMethod
       options s = (inl r, s') ->
  Purchase.success r = true ->
  0 < again ->
  exists b,
    findBook (bookDatabase s) bookId = Some b
    /\ let left := Book.stock b - quantity in
       0 <= left
       /\ fst (addToCart bookId again s')
          = if again <=? left
            then inl [(bookId, CartItem.mk (withStock b left) again)]
            else inr ("Only " ++ ofInt left ++ " copies available").
Proof.
  intros R Hs Hpos.
  assert (exists b log rc cc,
             findBook (bookDatabase s) bookId = Some b
             /\ 0 < quantity <= Book.stock b
             /\ s' = withCart
                       (mkState (setStock (bookDatabase s) bookId
                                          (Book.stock b - quantity))
                                [] log (host s) rc cc) [])
    as (b & log & rc & cc & F & Q & ->).
  { destruct R as [R | R].
    - destruct (completePurchase_run _ _ _ _ _ _ _ R)
        as [(e & _ & E & _) | (b & _ & F & Q & E & ->)].
      { injection E as ->. discriminate Hs. }
      exists b. do 3 eexists. repeat split; try assumption; apply Q.
    - destruct (completePurchaseWithExtras_run _ _ _ _ _ _ _ _ R)
        as [(e & _ & E & _) | (b & _ & F & Q & E & ->)].
      { injection E as ->. discriminate Hs. }
      exists b. do 3 eexists. repeat split; try assumption; apply Q. }
  exists b. split; [exact F|]. cbv zeta. split; [lia|].
  rewrite addToCart_fresh. cbn [bookDatabase].
  rewrite (findBook_setStock_same _ _ _ _ F).
  destruct (again <=? 0) eqn:E0; [apply Z.leb_le in E0; lia|].
  cbn [withStock Book.stock]. rewrite Z.gtb_ltb.
  destruct (again <=? Book.stock b - quantity) eqn:E1.
  - apply Z.leb_le in E1.
    destruct (Book.stock b - quantity <? again) eqn:E2;
      [apply Z.ltb_lt in E2; lia | reflexivity].
  - apply Z.leb_gt in E1.
    destruct (Book.stock b - quantity <? again) eqn:E2;
      [reflexivity | apply Z.ltb_ge in E2; lia].
Qed.

Lemma after_a_purchase_the_cart_sees_what_is_left_witness :
  let s' := snd (completePurchase "Brave" 6 1 "credit" accepting) in
  fst (addToCart 6 1 s')
  = inl [(6, CartItem.mk (Book.mk 6 "Brave New World" "Aldous Huxley"
                                  (literal (1349 # 100)) 1) 1)]
  /\ fst (addToCart 6 2 s') = inr "Only 1 copies available".
Proof.
  intros s'.
  assert (R : completePurchase "Brave" 6 1 "credit" accepting
              = (inl (Purchase.Order "ORD-1700000000001" (Some "TXN-1700000000000-i")
                        [(6, CartItem.mk (Book.mk 6 "Brave New World" "Aldous Huxley"
                                                  (literal (1349 # 100)) 2) 1)]
                        (literal (1484 # 100)) [(6, 1)]
                        "Purchase completed successfully!"), s'))
    by (vm_compute; reflexivity).
  assert (B : forall b, findBook (bookDatabase accepting) 6 = Some b ->
                        b = Book.mk 6 "Brave New World" "Aldous Huxley"
                                    (literal (1349 # 100)) 2).
  { intros b F.
    assert (E : Some b = Some (Book.mk 6 "Brave New World" "Aldous Huxley"
                                       (literal (1349 # 100)) 2))
      by (rewrite <- F; vm_compute; reflexivity).
    now injection E. }
  split.
  - destruct (after_a_purchase_the_cart_sees_what_is_left
                "Brave" 6 1 "credit" noOptions accepting _ s' 1 (or_introl R))
      as (b & F & _ & A); [reflexivity | lia |].
    rewrite A, (B b F). reflexivity.
  - destruct (after_a_purchase_the_cart_sees_what_is_left
                "Brave" 6 1 "credit" noOptions accepting _ s' 2 (or_introl R))
      as (b & F & _ & A); [reflexivity | lia |].
    rewrite A, (B b F). reflexivity.
Defined.

(** X11. A purchase reads the search query only to see whether it finds
    anything: two queries that both find something, or both nothing, give
    the same run of either purchase function.  The book bought is the one
    the id names, whether or not the search found it. *)
Theorem purchase_reads_the_query_only_as_a_gate
  (query query' : string) (bookId quantity : Z) (paymentMethod : string)
  (options : Options) (s : State) :
  hasResults query s = hasResults query' s ->
  completePurchase query bookId quantity paymentMethod s
  = completePurchase query' bookId quantity paymentMethod s
  /\ completePurchaseWithExtras query bookId quantity paymentMethod options s
     = completePurchaseWithExtras query' bookId quantity paymentMethod options s.
Proof.
  unfold hasResults, completePurchase, completePurchaseWithExtras, try_catch,
    bind, get_shoppingCart.
  destruct (searchBooks_run query s) as [l ->].
  destruct (searchBooks_run query' s) as [l' ->]. cbn [fst].
  destruct l, l'; try discriminate; intros _; split; reflexivity.
Qed.

Lemma purchase_reads_the_query_only_as_a_gate_witness :
  completePurchase "1984" 1 1 "credit" accepting
  = completePurchase "Gatsby" 1 1 "credit" accepting
  /\ Purchase.success
       match fst (completePurchase "1984" 1 1 "credit" accepting) with
       | inl r => r
       | inr e => Purchase.Failed e EmptyString
       end = true.
Proof.
  split.
  - apply (purchase_reads_the_query_only_as_a_gate
             "1984" "Gatsby" 1 1 "credit" noOptions accepting).
    reflexivity.
  - vm_compute. reflexivity.
Defined.

(** ** What every call preserves *)

Lemma describe_withStock b v :
  describe (Book.mk (Book.id b) (Book.title b) (Book.author b) (Book.price b) v)
  = describe b.
Proof. reflexivity. Qed.

Lemma setStock_describe db k v :
  List.map describe (setStock db k v) = List.map describe db.
Proof.
  induction db as [|b r IH]; simpl; [reflexivity|].
  destruct (Book.id b =? k); simpl; [reflexivity | now rewrite IH].
Qed.

Lemma applyLines_frame cart :
  forall updates s,
    shoppingCart (snd (applyLines cart updates s)) = shoppingCart s
    /\ emailLog (snd (applyLines cart updates s)) = emailLog s
    /\ host (snd (applyLines cart updates s)) = host s
    /\ List.map describe (bookDatabase (snd (applyLines cart updates s)))
       = List.map describe (bookDatabase s).
Proof.
  induction cart as [|[k item] r IH]; intros updates s; simpl; [auto|].
  unfold bind, get_bookDatabase, set_bookDatabase, throw.
  destruct (findBook (bookDatabase s) k) as [b|]; [|simpl; auto].
  match goal with
  | |- context [applyLines r ?u ?st] =>
      destruct (IH u st) as (C & L & H & D)
  end.
  rewrite C, L, H, D. simpl. rewrite setStock_describe. auto.
Qed.

Lemma updateInventory_frame cart s :
  shoppingCart (snd (updateInventory cart s)) = shoppingCart s
  /\ emailLog (snd (updateInventory cart s)) = emailLog s
  /\ host (snd (updateInventory cart s)) = host s
  /\ List.map describe (bookDatabase (snd (updateInventory cart s)))
     = List.map describe (bookDatabase s).
Proof.
  destruct cart as [cart|]; simpl; [|auto]. unfold bind.
  pose proof (validateLines_state cart s) as V.
  destruct (validateLines cart s) as [[[]|e] s1]; simpl in V; subst s1.
  - apply applyLines_frame.
  - simpl. auto.
Qed.

Lemma nth_error_split_at {A} (l : list A) i x :
  nth_error l i = Some x -> l = (firstn i l ++ x :: skipn (S i) l)%list.
Proof.
  revert i. induction l as [|a r IH]; intros [|i] H; simpl in *; try discriminate.
  - now injection H as ->.
  - f_equal. now apply IH.
Qed.

Lemma setStockAt_frame i v s :
  shoppingCart (snd (setStockAt i v s)) = shoppingCart s
  /\ emailLog (snd (setStockAt i v s)) = emailLog s
  /\ host (snd (setStockAt i v s)) = host s
  /\ List.map describe (bookDatabase (snd (setStockAt i v s)))
     = List.map describe (bookDatabase s).
Proof.
  unfold setStockAt, bind, get_bookDatabase, set_bookDatabase, throw.
  destruct (nth_error (bookDatabase s) i) as [b|] eqn:E; simpl; [|auto].
  repeat split.
  rewrite (nth_error_split_at _ _ _ E) at 3.
  rewrite !map_app. reflexivity.
Qed.

Lemma bind_frame {A B} (P : State -> State -> Prop) (m : M A) (k : A -> M B) s :
  (forall s1 s2 s3, P s1 s2 -> P s2 s3 -> P s1 s3) ->
  P s (snd (m s)) ->
  (forall a s1, P s1 (snd (k a s1))) ->
  P s (snd (bind m k s)).
Proof.
  intros Htrans Hm Hk. unfold bind.
  destruct (m s) as [[a|e] s1]; simpl in *; [|exact Hm].
  eapply Htrans; [exact Hm | apply Hk].
Qed.

Lemma framed_trans s1 s2 s3 : framed s1 s2 -> framed s2 s3 -> framed s1 s3.
Proof.
  intros (A1 & B1 & C1 & D1) (A2 & B2 & C2 & D2).
  repeat split; congruence.
Qed.

Lemma resetInventory_frame s : framed s (snd (resetInventory s)).
Proof.
  unfold resetInventory.
  repeat (apply bind_frame;
          [exact framed_trans | apply setStockAt_frame | intros _ ?]).
  apply setStockAt_frame.
Qed.

Lemma addToCart_run bookId quantity s :
  addToCart bookId quantity s
  = match findBook (bookDatabase s) bookId with
    | None => (inr ("Book with ID " ++ ofInt bookId ++ " not found"), s)
    | Some b =>
        if quantity <=? 0 then (inr "Quantity must be greater than 0", s)
        else if quantityInCart (shoppingCart s) bookId + quantity >? Book.stock b
        then (inr ("Only " ++ ofInt (Book.stock b) ++ " copies available"), s)
        else
          let cart' :=
            JsObject.set (shoppingCart s) bookId
              (lineAfterAdding (shoppingCart s) b quantity) in
          (inl cart', withCart s cart')
    end.
Proof.
  unfold addToCart, bind, get_bookDatabase, get_shoppingCart, throw, ret,
    set_shoppingCart, deepCopy, withCart, lineAfterAdding, quantityInCart.
  destruct (findBook (bookDatabase s) bookId) as [b|] eqn:F; [|reflexivity].
  rewrite (findBook_id _ _ _ F).
  destruct (quantity <=? 0); [reflexivity|].
  destruct (JsObject.get (shoppingCart s) bookId) as [item|];
    match goal with |- context [if ?c then _ else _] => destruct c end;
    reflexivity.
Qed.

Ltac unchanged := simpl; repeat split; auto.

(** What one call may do to the catalog, the e-mail log and the cart. *)
Lemma perform_effect c s :
  host (perform c s) = host s
  /\ List.map describe (bookDatabase (perform c s))
     = List.map describe (bookDatabase s)
  /\ (emailLog (perform c s) = emailLog s
      \/ (clearsTheLog c = true /\ emailLog (perform c s) = [])
      \/ exists e, emailLog (perform c s) = (emailLog s ++ [e])%list
                   /\ wellAddressed e)
  /\ (shoppingCart (perform c s) = shoppingCart s
      \/ shoppingCart (perform c s) = []
      \/ exists b q,
           findBook (bookDatabase s) (Book.id b) = Some b
           /\ 0 < q
           /\ shoppingCart (perform c s)
              = JsObject.set (shoppingCart s) (Book.id b)
                  (lineAfterAdding (shoppingCart s) b q)).
Proof.
  destruct c; simpl.
  - destruct (searchBooks_run query s) as [l ->]. simpl. auto.
  - rewrite addToCart_run.
    destruct (findBook (bookDatabase s) bookId) as [b|] eqn:F; [|unchanged].
    destruct (quantity <=? 0) eqn:Q; [unchanged|].
    destruct (_ >? _); [unchanged|].
    cbn. repeat split; auto. right. right. exists b, quantity.
    rewrite (findBook_id _ _ _ F). apply Z.leb_gt in Q. auto.
  - rewrite processPayment_run.
    destruct (le cartTotal (literal 0)); [unchanged|].
    destruct (negb _); [unchanged|].
    destruct (gt _ _); unchanged.
  - destruct (updateInventory_frame cart s) as (C & L & H & D).
    rewrite C, L, H, D. unchanged.
  - destruct (completePurchase searchQuery bookId quantity paymentMethod s)
      as [r s'] eqn:R. simpl.
    destruct (completePurchase_run _ _ _ _ _ _ _ R)
      as [(e & _ & _ & [-> | ->]) | (b & _ & _ & _ & _ & ->)]; unchanged.
    rewrite setStock_describe. unchanged.
  - unchanged.
  - destruct (resetInventory_frame s) as (C & L & H & D).
    rewrite C, L, H, D. unchanged.
  - unchanged.
  - unfold sendEmailNotification.
    destruct recipient as [a|]; [|unchanged].
    destruct (truthy a); [|unchanged].
    destruct (includes a "@") eqn:At; [|unchanged].
    simpl. repeat split; auto. right. right. eexists. split; [reflexivity|].
    split; [exact At | reflexivity].
  - destruct (completePurchaseWithExtras searchQuery bookId quantity
                paymentMethod options s) as [r s'] eqn:R. simpl.
    destruct (completePurchaseWithExtras_run _ _ _ _ _ _ _ _ R)
      as [(e & _ & _ & [-> | ->]) | (b & _ & _ & _ & _ & ->)]; unchanged.
    rewrite setStock_describe. repeat split; auto.
    unfold confirmation. destruct (customerEmail options) as [a|]; auto.
    destruct (includes a "@") eqn:At; auto.
    right. right. eexists. split; [reflexivity|].
    split; [exact At | reflexivity].
  - unchanged.
  - unchanged.
Qed.

(** ** The catalog keeps its entries *)

Lemma performAll_describe calls :
  forall s,
    List.map describe (bookDatabase (performAll calls s))
    = List.map describe (bookDatabase s).
Proof.
  induction calls as [|c r IH]; intros s; [reflexivity|].
  simpl. rewrite IH. apply perform_effect.
Qed.

Lemma resetInventory_on_the_catalog s :
  List.map describe (bookDatabase s) = List.map describe seedCatalog ->
  resetInventory s = (inl tt, withDatabase s seedCatalog).
Proof.
  intros H. unfold resetInventory, setStockAt, bind, get_bookDatabase,
    set_bookDatabase, withDatabase.
  assert (L : List.length (bookDatabase s) = 6%nat).
  { apply (f_equal (@List.length _)) in H. now rewrite !length_map in H. }
  destruct (bookDatabase s) as [|b1 [|b2 [|b3 [|b4 [|b5 [|b6 [|b7 r]]]]]]];
    try discriminate L.
  clear L. unfold seedCatalog in H. cbn [List.map] in H.
  injection H; clear H; intros.
  cbn [nth_error firstn skipn app bookDatabase shoppingCart emailLog host
       randomCalls clockCalls].
  unfold describe in *.
  repeat match goal with
         | E : _ = _ |- _ => rewrite E; clear E
         end.
  reflexivity.
Qed.

(** X12. No call on the module changes the id, title, author or price of
    a catalog entry, or the order of the entries.  So after any sequence of
    calls from the loaded module [resetInventory] returns normally and the
    catalog is again the seeded one, stocks included. *)
Theorem resetInventory_restores_the_seeded_catalog
  (h : Host) (calls : list Call) :
  let s := performAll calls (initialState h) in
  List.map describe (bookDatabase s) = List.map describe seedCatalog
  /\ resetInventory s = (inl tt, withDatabase s seedCatalog).
Proof.
  intros s.
  assert (H : List.map describe (bookDatabase s) = List.map describe seedCatalog)
    by apply performAll_describe.
  split; [exact H|]. now apply resetInventory_on_the_catalog.
Qed.

(** ** The e-mail log *)

Lemma performAll_log_grows calls :
  forall s,
    existsb clearsTheLog calls = false ->
    exists added,
      emailLog (performAll calls s) = (emailLog s ++ added)%list
      /\ Forall wellAddressed added
      /\ (List.length added <= List.length calls)%nat.
Proof.
  induction calls as [|c r IH]; intros s H.
  - exists []. simpl. rewrite app_nil_r. repeat split; auto.
  - simpl in H. apply orb_false_iff in H. destruct H as [Hc Hr].
    destruct (IH (perform c s) Hr) as (added & E & W & L).
    simpl. rewrite E.
    destruct (perform_effect c s) as (_ & _ & [-> | [[C _] | (e & -> & We)]] & _).
    + exists added. repeat split; auto.
    + congruence.
    + exists (e :: added). rewrite <- app_assoc. simpl.
      repeat split; auto. lia.
Qed.

Lemma performAll_log_wellAddressed calls :
  forall s,
    Forall wellAddressed (emailLog s) ->
    Forall wellAddressed (emailLog (performAll calls s)).
Proof.
  induction calls as [|c r IH]; intros s H; [exact H|].
  simpl. apply IH.
  destruct (perform_effect c s) as (_ & _ & [-> | [[_ ->] | (e & -> & We)]] & _).
  - exact H.
  - constructor.
  - apply Forall_app. split; [exact H|]. constructor; [exact We | constructor].
Qed.

(** X13. After any sequence of calls from the loaded module every message
    of the e-mail log has a recipient with an at sign and the status sent.
    Short of [clearEmailLog] the log only grows: after a sequence of calls
    without it, from any state, the log is the old one followed by at most
    one new message per call. *)
Theorem email_log_only_grows_by_sent_messages :
  (forall (h : Host) (calls : list Call),
      Forall (fun e => includes (Email.to e) "@" = true /\ Email.status e = "sent")
             (emailLog (performAll calls (initialState h))))
  /\ (forall (s : State) (calls : list Call),
      existsb clearsTheLog calls = false ->
      exists added,
        emailLog (performAll calls s) = (emailLog s ++ added)%list
        /\ (List.length added <= List.length calls)%nat).
Proof.
  split.
  - intros h calls. apply (performAll_log_wellAddressed calls). constructor.
  - intros s calls H.
    destruct (performAll_log_grows calls s H) as (added & E & _ & L).
    exists added. split; assumption.
Qed.

Lemma email_log_only_grows_by_sent_messages_witness :
  let calls :=
    [CallCompletePurchaseWithExtras "Gatsby" 1 1 "credit"
       (mkOptions None None (Some "one@example.com"));
     CallAddToCart 2 1;
     CallCompletePurchaseWithExtras "Brave" 6 1 "paypal"
       (mkOptions None None (Some "two@example.com"))] in
  exists added,
    emailLog (performAll calls accepting) = (emailLog accepting ++ added)%list
    /\ (List.length added <= 3)%nat.
Proof.
  intros calls.
  destruct (proj2 email_log_only_grows_by_sent_messages accepting calls)
    as (added & E & L); [reflexivity|].
  exists added. split; [exact E | exact L].
Defined.

(** ** The session cart *)

Lemma set_keys_In {A} (o : JsObject.object A) k v x :
  In x (JsObject.keys (JsObject.set o k v)) -> x = k \/ In x (JsObject.keys o).
Proof.
  unfold JsObject.keys.
  induction o as [|[k' v'] r IH]; simpl.
  - intros [<-|[]]. auto.
  - destruct (k' =? k) eqn:E; simpl.
    + intros [<-|H]; auto.
    + destruct (k <? k'); simpl.
      * intros [<-|[<-|H]]; auto.
      * intros [<-|H]; auto. destruct (IH H); auto.
Qed.

Lemma set_In {A} (o : JsObject.object A) k v line :
  In line (JsObject.set o k v) -> line = (k, v) \/ In line o.
Proof.
  induction o as [|[k' v'] r IH]; simpl.
  - intros [<-|[]]. auto.
  - destruct (k' =? k) eqn:E; simpl.
    + intros [<-|H]; auto.
    + destruct (k <? k'); simpl.
      * intros [<-|[<-|H]]; auto.
      * intros [<-|H]; auto. destruct (IH H); auto.
Qed.

Lemma get_In {A} (o : JsObject.object A) k v :
  JsObject.get o k = Some v -> In (k, v) o.
Proof.
  induction o as [|[k' v'] r IH]; simpl; [discriminate|].
  destruct (k' =? k) eqn:E.
  - apply Z.eqb_eq in E. subst k'. intros [= ->]. now left.
  - intros H. right. now apply IH.
Qed.

Lemma set_ascending {A} (o : JsObject.object A) k v :
  StronglySorted Z.lt (JsObject.keys o) ->
  StronglySorted Z.lt (JsObject.keys (JsObject.set o k v)).
Proof.
  induction o as [|[k' v'] r IH]; simpl; intros H.
  - repeat constructor.
  - inversion H as [|? ? Hr Hall]; subst.
    destruct (k' =? k) eqn:E; simpl.
    + apply Z.eqb_eq in E. subst k'. constructor; assumption.
    + apply Z.eqb_neq in E. destruct (k <? k') eqn:L; simpl.
      * apply Z.ltb_lt in L. constructor; [exact H|].
        constructor; [exact L|].
        eapply Forall_impl; [|exact Hall]. simpl. intros; lia.
      * apply Z.ltb_ge in L. constructor; [now apply IH|].
        apply Forall_forall. intros x Hx.
        destruct (set_keys_In _ _ _ _ Hx) as [->|Hx']; [lia|].
        rewrite Forall_forall in Hall. now apply Hall.
Qed.

Lemma findBook_In db k b : findBook db k = Some b -> In b db.
Proof. unfold findBook. intros H. now apply List.find_some in H. Qed.

Lemma soundCart_add cart b q db :
  List.map describe db = List.map describe seedCatalog ->
  findBook db (Book.id b) = Some b ->
  0 < q ->
  soundCart cart ->
  soundCart (JsObject.set cart (Book.id b) (lineAfterAdding cart b q)).
Proof.
  intros Hdb F Hq [Hs Hl]. split; [now apply set_ascending|].
  apply Forall_forall. intros line Hin.
  destruct (set_In _ _ _ _ Hin) as [->|Hold].
  2:{ rewrite Forall_forall in Hl. now apply Hl. }
  unfold soundLine, lineAfterAdding, quantityInCart.
  cbn [fst snd CartItem.book CartItem.quantity].
  destruct (JsObject.get cart (Book.id b)) as [item|] eqn:G.
  - apply get_In in G. rewrite Forall_forall in Hl.
    destruct (Hl _ G) as (Hid & Hpos & Hcat).
    cbn [fst snd CartItem.book CartItem.quantity] in *.
    repeat split; [exact Hid | lia | exact Hcat].
  - repeat split; [lia|].
    rewrite <- Hdb. apply in_map. eapply findBook_In; eassumption.
Qed.

Lemma perform_soundCart c s :
  List.map describe (bookDatabase s) = List.map describe seedCatalog ->
  soundCart (shoppingCart s) ->
  soundCart (shoppingCart (perform c s)).
Proof.
  intros Hdb H.
  destruct (perform_effect c s)
    as (_ & _ & _ & [-> | [-> | (b & q & F & Hq & ->)]]).
  - exact H.
  - split; constructor.
  - eapply soundCart_add; eassumption.
Qed.

Lemma performAll_soundCart calls :
  forall s,
    List.map describe (bookDatabase s) = List.map describe seedCatalog ->
    soundCart (shoppingCart s) ->
    soundCart (shoppingCart (performAll calls s)).
Proof.
  induction calls as [|c r IH]; intros s Hdb H; [exact H|].
  simpl. apply IH.
  - destruct (perform_effect c s) as (_ & -> & _). exact Hdb.
  - now apply perform_soundCart.
Qed.

(** X14. After any sequence of calls from the loaded module the session
    cart lists its lines by ascending book id, each id once; every line is
    filed under the id of its book, has a positive quantity, and its book
    is a book of the seeded catalog up to the stock figure. *)
Theorem session_cart_lines_stay_sound (h : Host) (calls : list Call) :
  let cart := shoppingCart (performAll calls (initialState h)) in
  StronglySorted Z.lt (JsObject.keys cart)
  /\ NoDup (JsObject.keys cart)
  /\ forall bookId item,
       JsObject.get cart bookId = Some item ->
       Book.id (CartItem.book item) = bookId
       /\ 0 < CartItem.quantity item
       /\ exists b, In b seedCatalog
                    /\ describe (CartItem.book item) = describe b.
Proof.
  intros cart.
  assert (S : soundCart cart).
  { apply performAll_soundCart; [reflexivity|]. split; constructor. }
  destruct S as [Hs Hl]. split; [exact Hs|]. split.
  - clear Hl. induction Hs as [|k r Hr IH Hall]; constructor; [|exact IH].
    intros Hin. rewrite Forall_forall in Hall. specialize (Hall _ Hin). lia.
  - intros bookId item G. apply get_In in G.
    rewrite Forall_forall in Hl. destruct (Hl _ G) as (Hid & Hq & Hcat).
    cbn [fst snd] in *. repeat split; [exact Hid | exact Hq|].
    apply in_map_iff in Hcat. destruct Hcat as (b & E & Hb).
    exists b. split; [exact Hb | now symmetry].
Qed.

(** ** Adding to the cart *)

Lemma set_set {A} (o : JsObject.object A) k v w :
  JsObject.set (JsObject.set o k v) k w = JsObject.set o k w.
Proof.
  induction o as [|[k' v'] r IH]; simpl.
  - now rewrite Z.eqb_refl.
  - destruct (k' =? k) eqn:E; simpl.
    + now rewrite Z.eqb_refl.
    + destruct (k <? k') eqn:L; simpl.
      * now rewrite Z.eqb_refl.
      * now rewrite E, L, IH.
Qed.

Ltac tests_to_props :=
  repeat match goal with
         | H : (_ =? _) = true |- _ => apply Z.eqb_eq in H
         | H : (_ =? _) = false |- _ => apply Z.eqb_neq in H
         | H : (_ <? _) = true |- _ => apply Z.ltb_lt in H
         | H : (_ <? _) = false |- _ => apply Z.ltb_ge in H
         end.

Ltac split_tests :=
  repeat match goal with
         | |- context [?a =? ?b] =>
             let E := fresh "E" in
             destruct (a =? b) eqn:E; tests_to_props; try lia
         | |- context [?a <? ?b] =>
             let E := fresh "E" in
             destruct (a <? b) eqn:E; tests_to_props; try lia
         end.

Lemma set_comm {A} (o : JsObject.object A) i j v w :
  i <> j ->
  JsObject.set (JsObject.set o i v) j w = JsObject.set (JsObject.set o j w) i v.
Proof.
  intros Hij. induction o as [|[k' v'] r IH]; simpl.
  - split_tests; reflexivity.
  - split_tests; simpl; split_tests; try reflexivity. now rewrite IH.
Qed.

Lemma quantityInCart_set cart k item :
  quantityInCart (JsObject.set cart k item) k = CartItem.quantity item.
Proof. unfold quantityInCart. now rewrite get_set_same. Qed.

Lemma quantityInCart_set_other cart k item j :
  j <> k -> quantityInCart (JsObject.set cart k item) j = quantityInCart cart j.
Proof. intros H. unfold quantityInCart. now rewrite get_set_other. Qed.

Lemma lineAfterAdding_set_other cart k item b q :
  Book.id b <> k ->
  lineAfterAdding (JsObject.set cart k item) b q = lineAfterAdding cart b q.
Proof.
  intros H. unfold lineAfterAdding.
  now rewrite quantityInCart_set_other, get_set_other.
Qed.

(** X15. Adding a quantity of a book and then, the first call accepted, a
    second positive quantity of the same book gives the result of adding
    the sum in one call: the same error if the sum exceeds the stock, the
    same cart and state otherwise. *)
Theorem adding_twice_is_adding_the_sum
  (bookId first second : Z) (s : State) (cart1 : Cart) (s1 : State) :
  addToCart bookId first s = (inl cart1, s1) ->
  0 < second ->
  fst (addToCart bookId second s1) = fst (addToCart bookId (first + second) s)
  /\ forall cart2 s2,
       addToCart bookId second s1 = (inl cart2, s2) ->
       addToCart bookId (first + second) s = (inl cart2, s2).
Proof.
  rewrite (addToCart_run bookId first s), (addToCart_run bookId (first + second) s).
  destruct (findBook (bookDatabase s) bookId) as [b|] eqn:F; [|discriminate].
  pose proof (findBook_id _ _ _ F) as Hid.
  destruct (first <=? 0) eqn:Q1; [discriminate|].
  destruct (quantityInCart (shoppingCart s) bookId + first >? Book.stock b) eqn:T1;
    [discriminate|].
  cbv zeta. intros [= <- <-] Hpos.
  rewrite addToCart_run. cbn [withCart bookDatabase shoppingCart]. rewrite F.
  apply Z.leb_gt in Q1.
  destruct (second <=? 0) eqn:Q2; [apply Z.leb_le in Q2; lia|].
  destruct (first + second <=? 0) eqn:Q3; [apply Z.leb_le in Q3; lia|].
  assert (E1 : quantityInCart
                 (JsObject.set (shoppingCart s) bookId
                    (lineAfterAdding (shoppingCart s) b first)) bookId
               = quantityInCart (shoppingCart s) bookId + first).
  { rewrite quantityInCart_set. unfold lineAfterAdding.
    cbn [CartItem.quantity]. now rewrite Hid. }
  assert (E2 : lineAfterAdding
                 (JsObject.set (shoppingCart s) bookId
                    (lineAfterAdding (shoppingCart s) b first)) b second
               = lineAfterAdding (shoppingCart s) b (first + second)).
  { unfold lineAfterAdding at 1. rewrite Hid, E1, get_set_same.
    unfold lineAfterAdding. cbn [CartItem.book]. rewrite Hid.
    now rewrite Z.add_assoc. }
  rewrite E1, E2, set_set, <- Z.add_assoc.
  destruct (quantityInCart (shoppingCart s) bookId + (first + second)
            >? Book.stock b); cbn [fst].
  - split; [reflexivity | discriminate].
  - split; [reflexivity|]. intros cart2 s2 [= <- <-]. reflexivity.
Qed.

Lemma adding_twice_is_adding_the_sum_witness :
  fst ((addToCart 4 3 ;;; addToCart 4 4) accepting)
  = fst (addToCart 4 7 accepting)
  /\ fst ((addToCart 4 3 ;;; addToCart 4 5) accepting)
     = inr "Only 7 copies available".
Proof.
  assert (A : addToCart 4 3 accepting
              = (inl [(4, CartItem.mk (Book.mk 4 "Pride and Prejudice" "Jane Austen"
                                               (literal (1199 # 100)) 7) 3)],
                 snd (addToCart 4 3 accepting)))
    by (vm_compute; reflexivity).
  split.
  - destruct (adding_twice_is_adding_the_sum 4 3 4 accepting _ _ A) as [H _];
      [lia|].
    unfold bind. rewrite A. exact H.
  - destruct (adding_twice_is_adding_the_sum 4 3 5 accepting _ _ A) as [H _];
      [lia|].
    unfold bind. rewrite A. rewrite H. vm_compute. reflexivity.
Defined.

Lemma addToCart_state bookId quantity s :
  snd (addToCart bookId quantity s)
  = match findBook (bookDatabase s) bookId with
    | Some b =>
        if (quantity <=? 0)
           || (quantityInCart (shoppingCart s) bookId + quantity >? Book.stock b)
        then s
        else withCart s (JsObject.set (shoppingCart s) bookId
                           (lineAfterAdding (shoppingCart s) b quantity))
    | None => s
    end.
Proof.
  rewrite addToCart_run.
  destruct (findBook (bookDatabase s) bookId) as [b|]; [|reflexivity].
  destruct (quantity <=? 0); [reflexivity|].
  destruct (_ >? _); reflexivity.
Qed.

(** X16. Two [addToCart] calls for different books can be made in either
    order: whether each is accepted or refused, the state after both is
    the same. *)
Theorem adding_different_books_in_either_order
  (first second quantity1 quantity2 : Z) (s : State) :
  first <> second ->
  performAll [CallAddToCart first quantity1; CallAddToCart second quantity2] s
  = performAll [CallAddToCart second quantity2; CallAddToCart first quantity1] s.
Proof.
  intros Hne. unfold performAll. cbn [fold_left perform].
  rewrite (addToCart_state first quantity1 s),
    (addToCart_state second quantity2 s).
  destruct (findBook (bookDatabase s) first) as [b1|] eqn:F1;
    destruct (findBook (bookDatabase s) second) as [b2|] eqn:F2;
    repeat match goal with
           | |- context [if ?c then _ else _] => destruct c eqn:?
           end;
    rewrite ?addToCart_state; cbn [withCart bookDatabase shoppingCart];
    rewrite ?F1, ?F2;
    rewrite ?quantityInCart_set_other by congruence;
    repeat match goal with
           | H : ?c = _ |- context [if ?c then _ else _] => rewrite H
           end;
    try reflexivity.
  pose proof (findBook_id _ _ _ F1) as Hid1.
  pose proof (findBook_id _ _ _ F2) as Hid2.
  rewrite !lineAfterAdding_set_other by congruence.
  unfold withCart.
  cbn [bookDatabase shoppingCart emailLog host randomCalls clockCalls].
  f_equal. apply set_comm. exact Hne.
Qed.

Lemma adding_different_books_in_either_order_witness :
  shoppingCart (performAll [CallAddToCart 4 2; CallAddToCart 2 3] accepting)
  = fiveBooks
  /\ shoppingCart (performAll [CallAddToCart 2 3; CallAddToCart 4 2] accepting)
     = fiveBooks.
Proof.
  rewrite (adding_different_books_in_either_order 4 2 2 3 accepting);
    [|discriminate].
  split; vm_compute; reflexivity.
Defined.

(** ** Pricing at the edges *)




Lemma ge_not_lt x y : ge x y = true -> lt x y = false.
Proof.
  unfold ge, le, lt. destruct x as [|a|a], y as [|b|b]; try reflexivity;
    try discriminate.
  - destruct a, b; simpl; congruence.
  - destruct a; simpl; congruence.
  - destruct b; simpl; congruence.
  - intros ->. reflexivity.
Qed.

(** X18. For a cart whose prices and quantities are not negative,
    [calculateTotal] is never below zero; when the sum of the lines is
    finite the total is at least zero, and so is not NaN. *)
Theorem calculateTotal_is_never_negative (cart : Cart) :
  Forall pricedLine cart ->
  lt (calculateTotal (Some cart)) (literal 0) = false
  /\ (is_finite (sumLines cart) = true ->
      ge (calculateTotal (Some cart)) (literal 0) = true).
Proof.
  intros Hcart. unfold calculateTotal.
  pose proof (sumLines_summable cart Hcart) as Hsum.
  destruct tenth_positive as (c & Ec & Hc). rewrite Ec.
  destruct (sumLines cart) as [|s|tv]; cbn [summable is_finite] in *.
  - split; [reflexivity | discriminate].
  - subst s. split; [|discriminate].
    apply ge_not_lt, ge_zero_iff, round2_nonNegative, add_nonNegative;
      [reflexivity|].
    apply mul_positive_nonNegative; [reflexivity | exact Hc].
  - destruct Hsum as [Ht _].
    assert (N : nonNegative
                  (parseFloat
                     (toFixed (add (Finite tv) (mul (Finite tv) (Finite c))) 2))).
    { apply round2_nonNegative, add_nonNegative; [exact Ht|].
      apply mul_positive_nonNegative; [exact Ht | exact Hc]. }
    apply ge_zero_iff in N. split; [now apply ge_not_lt | intros _; exact N].
Qed.

Lemma calculateTotal_is_never_negative_witness :
  Forall pricedLine twoBooks
  /\ lt (calculateTotal (Some twoBooks)) (literal 0) = false
  /\ ge (calculateTotal (Some twoBooks)) (literal 0) = true.
Proof.
  assert (H : Forall pricedLine twoBooks).
  { repeat constructor; vm_compute; congruence. }
  split; [exact H|].
  destruct (calculateTotal_is_never_negative twoBooks H) as [L G].
  split; [exact L|]. apply G. vm_compute. reflexivity.
Defined.

Lemma subtotal_not_below_zero cart :
  Forall pricedLine cart ->
  lt (parseFloat (toFixed (sumLines cart) 2)) (ofZ 0) = false.
Proof.
  intros H. pose proof (sumLines_summable cart H) as S.
  change (ofZ 0) with (literal 0).
  destruct (sumLines cart) as [|s|v]; cbn [summable] in S.
  - reflexivity.
  - subst s. reflexivity.
  - apply ge_not_lt, ge_zero_iff, round2_nonNegative. exact (proj1 S).
Qed.

(** X19. For a cart whose prices and quantities are not negative, the
    free-shipping coupon, in any letter case and with any shipping method,
    gives the five amounts of the breakdown that the free method gives
    without a coupon. *)
Theorem free_shipping_coupon_is_the_free_method
  (cart : Cart) (code shippingMethod : string) :
  Forall pricedLine cart ->
  toUpperCase code = "FREESHIP" ->
  amounts (calculateTotalWithExtras (Some cart) (Some code) shippingMethod)
  = amounts (calculateTotalWithExtras (Some cart) None "free").
Proof.
  intros Hcart Hcode. unfold amounts, calculateTotalWithExtras, applyCoupon.
  assert (T : truthy code = true) by (destruct code; [discriminate | reflexivity]).
  rewrite T, Hcode. cbn [negb].
  change (lookup couponDatabase "FREESHIP")
    with (Some (Coupon.mk Coupon.free_shipping 0 0)).
  cbn [Coupon.minPurchase Coupon.type Coupon.value].
  rewrite (subtotal_not_below_zero cart Hcart).
  cbn [CouponResult.valid CouponResult.discount CouponResult.freeShipping
       Pricing.subtotal Pricing.discount Pricing.tax Pricing.shipping
       Pricing.total].
  change (lookup shippingOptions "free")
    with (Some (Shipping.mk "Free Shipping" (literal 0) "7-10")).
  reflexivity.
Qed.

Lemma free_shipping_coupon_is_the_free_method_witness :
  Pricing.total
    (calculateTotalWithExtras (Some twoBooks) (Some "freeship") "overnight")
  = Pricing.total (calculateTotalWithExtras (Some twoBooks) None "free").
Proof.
  assert (H : Forall pricedLine twoBooks).
  { repeat constructor; vm_compute; congruence. }
  pose proof (free_shipping_coupon_is_the_free_method
                twoBooks "freeship" "overnight" H eq_refl) as E.
  apply (f_equal snd) in E. exact E.
Defined.

(** ** What a purchase charges *)

(** X20. The confirmation of a successful purchase states the price the
    pricing function gives for the line bought: [calculateTotal] of the
    items for the basic purchase, [calculateTotalWithExtras] of the items
    under the coupon and shipping options for the extended one.  That
    amount is the one the payment was made for, and it is not at most
    zero. *)
Theorem confirmation_states_the_price_of_the_line_bought
  (searchQuery : string) (bookId quantity : Z) (paymentMethod : string)
  (options : Options) (s : State) :
  (forall r s',
      completePurchase searchQuery bookId quantity paymentMethod s = (inl r, s') ->
      Purchase.success r = true ->
      exists items,
        itemsOf r = Some items
        /\ chargedOf r = Some (calculateTotal (Some items))
        /\ le (calculateTotal (Some items)) (literal 0) = false)
  /\ (forall r s',
      completePurchaseWithExtras searchQuery bookId quantity paymentMethod
        options s = (inl r, s') ->
      Purchase.success r = true ->
      exists items,
        itemsOf r = Some items
        /\ pricingOf r
           = Some (calculateTotalWithExtras (Some items) (couponCode options)
                     match shippingMethod options with
                     | Some m => m
                     | None => "standard"
                     end)
        /\ chargedOf r = Some (totalWithExtras options items)
        /\ le (totalWithExtras options items) (literal 0) = false).
Proof.
  split; intros r s' R Hs.
  - destruct (completePurchase_run _ _ _ _ _ _ _ R)
      as [(e & _ & E & _) | (b & C & F & Q & E & _)].
    { injection E as ->. discriminate Hs. }
    injection E as ->. eexists. split; [reflexivity|]. split; [reflexivity|].
    revert C. unfold refusal.
    destruct (negb _); [discriminate|]. rewrite F.
    destruct (quantity <=? 0); [discriminate|].
    destruct (quantity >? Book.stock b); [discriminate|].
    destruct (le _ _); [discriminate | reflexivity].
  - destruct (completePurchaseWithExtras_run _ _ _ _ _ _ _ _ R)
      as [(e & _ & E & _) | (b & C & F & Q & E & _)].
    { injection E as ->. discriminate Hs. }
    injection E as ->. eexists. split; [reflexivity|]. split; [reflexivity|].
    split; [reflexivity|].
    revert C. unfold refusal.
    destruct (negb _); [discriminate|]. rewrite F.
    destruct (quantity <=? 0); [discriminate|].
    destruct (quantity >? Book.stock b); [discriminate|].
    destruct (le _ _); [discriminate | reflexivity].
Qed.

Lemma confirmation_states_the_price_of_the_line_bought_witness :
  chargedOf
    match fst (completePurchaseWithExtras "Gatsby" 1 1 "credit"
                 (mkOptions (Some "SAVE10") None None) accepting) with
    | inl r => r
    | inr e => Purchase.Failed e EmptyString
    end
  = Some (literal (1885 # 100)).
Proof.
  destruct (completePurchaseWithExtras "Gatsby" 1 1 "credit"
              (mkOptions (Some "SAVE10") None None) accepting)
    as [[r|e] s'] eqn:R; [|vm_compute in R; discriminate R].
  destruct (proj2 (confirmation_states_the_price_of_the_line_bought
                     "Gatsby" 1 1 "credit"
                     (mkOptions (Some "SAVE10") None None) accepting) r s' R)
    as (items & I & _ & C & _).
  - vm_compute in R. injection R as <- _. reflexivity.
  - cbn [fst]. rewrite C. 
    assert (E : Some items = Some (oneLine (1299 # 100) 1)).
    { rewrite <- I. vm_compute in R. injection R as <- _. reflexivity. }
    injection E as ->. vm_compute. reflexivity.
Defined.
